(** * elsapy.elssearch: the ElsSearch pagination core

    A shallow embedding of [src/elsapy/elssearch.py].  The class [ElsSearch]
    is modelled as an attribute store (every attribute may be unset, reading an
    unset attribute raises [AttributeError]); its methods are computations in a
    state-and-exception monad whose state survives an exception, as the
    attributes of a Python object survive a raise.  The state also carries the
    log of the requests sent through the client and the allocator of [int]
    objects (the method [hasAllResults] compares two [int] objects with [is]).
    The client, pandas and the tqdm progress bar are collaborators: the
    properties hold for every behaviour of theirs, or say which behaviour
    they need.
*)

From Stdlib Require Import ZArith List String Ascii Bool Lia Arith.
From Stdlib Require Import DecimalString.
Import ListNotations.

Local Open Scope string_scope.
Local Open Scope Z_scope.

(** ** urllib.parse.quote_plus

    [from urllib.parse import quote_plus as url_encode].  A Python [str] is
    represented by its UTF-8 bytes, which is what [quote_plus] works on: the
    bytes [A-Z a-z 0-9 _ . - ~] are kept, a space becomes [+], every other
    byte becomes [%XX] with two upper-case hexadecimal digits. *)
Module Urllib.

Definition in_range (lo hi n : nat) : bool :=
  (Nat.leb lo n && Nat.leb n hi)%bool.

Definition always_safe (c : ascii) : bool :=
  let n := nat_of_ascii c in
  (in_range 65 90 n || in_range 97 122 n || in_range 48 57 n
   || Nat.eqb n 95 || Nat.eqb n 46 || Nat.eqb n 45 || Nat.eqb n 126)%bool.

Definition hex_digit (n : nat) : ascii :=
  if Nat.ltb n 10 then ascii_of_nat (48 + n) else ascii_of_nat (55 + n).

Definition percent_byte (c : ascii) : string :=
  let n := nat_of_ascii c in
  String "%" (String (hex_digit (Nat.div n 16))
                (String (hex_digit (Nat.modulo n 16)) EmptyString)).

Fixpoint quote_plus (s : string) : string :=
  match s with
  | EmptyString => EmptyString
  | String c rest =>
      if always_safe c then String c (quote_plus rest)
      else if Ascii.eqb c " " then String "+" (quote_plus rest)
      else percent_byte c ++ quote_plus rest
  end.

End Urllib.

Definition url_encode : string -> string := Urllib.quote_plus.

(** [str(n)] of an [int], as the f-string [f"&count={count}"] formats it. *)
Definition str_of_int (n : Z) : string :=
  NilZero.string_of_int (Z.to_int n).

(** ** Exceptions and the outcome of a call *)

Inductive exn : Type :=
| AttributeError (attr : string)
| KeyError (key : string)
| UnboundLocalError (var : string)
| OverflowError (msg : string)
| ClientError (msg : string).

(** A call returns a value, raises, or is still running when the fuel of the
    model is used up (only the [while] loop of [execute] consumes fuel). *)
Inductive outcome (A : Type) : Type :=
| Ok (a : A)
| Raise (e : exn)
| OutOfFuel.

Arguments Ok {A} a.
Arguments Raise {A} e.
Arguments OutOfFuel {A}.

(** ** [int] objects and their identity

    CPython keeps one shared object for each of the integers -5..256; any
    other integer produced by [int(...)] or [len(...)] is a newly allocated
    object.  [a is b] compares addresses. *)
Inductive address : Type :=
| SmallInt (v : Z)
| HeapAddr (n : nat).

Record PyInt : Type := { ob_addr : address; ob_ival : Z }.

Definition is_small_int (z : Z) : bool := ((-5 <=? z) && (z <=? 256))%bool.

Definition address_eqb (a b : address) : bool :=
  match a, b with
  | SmallInt x, SmallInt y => x =? y
  | HeapAddr m, HeapAddr n => Nat.eqb m n
  | _, _ => false
  end.

Definition py_is (a b : PyInt) : bool := address_eqb (ob_addr a) (ob_addr b).

(** ** Parsed responses

    [ElsClient.exec_request] returns the parsed JSON body of the response.  The
    search code reads the keys ["search-results"], ["opensearch:totalResults"],
    ["entry"], ["link"], ["@ref"] and ["@href"]; each of them may be absent
    ([None]), in which case the subscript raises [KeyError].  A field that is
    present has the type the API gives it: the total is given by the integer
    [int(...)] makes of it (a total that [int] rejects is outside the model),
    the entries and the links are lists, ["@ref"] and ["@href"] are
    strings. *)
Record Link : Type := {
  at_ref : option string;
  at_href : option string
}.

Record SearchResults (Entry : Type) : Type := {
  opensearch_totalResults : option Z;
  entry : option (list Entry);
  link : option (list Link)
}.

Arguments opensearch_totalResults {Entry} _.
Arguments entry {Entry} _.
Arguments link {Entry} _.

Record ApiResponse (Entry : Type) : Type := {
  search_results : option (SearchResults Entry)
}.

Arguments search_results {Entry} _.

(** The client is the collaborator behind [els_client.exec_request(url)]: what
    it answers may depend on the requests it has served before.  It returns a
    freshly parsed body for each request, or raises. *)
Definition ElsClient (Entry : Type) : Type :=
  list string -> string -> exn + ApiResponse Entry.

Definition event (Entry : Type) : Type := (string * (exn + ApiResponse Entry))%type.

(** ** The object and the interpreter state *)

Record ElsSearch (Entry DataFrame : Type) : Type := {
  _query : option string;
  _index : option string;
  _cursor_supported : option bool;
  _uri : option string;
  results_df : option DataFrame;
  _results : option (list Entry);
  _tot_num_res : option PyInt
}.

Arguments _query {Entry DataFrame} _.
Arguments _index {Entry DataFrame} _.
Arguments _cursor_supported {Entry DataFrame} _.
Arguments _uri {Entry DataFrame} _.
Arguments results_df {Entry DataFrame} _.
Arguments _results {Entry DataFrame} _.
Arguments _tot_num_res {Entry DataFrame} _.

Record state (Entry DataFrame : Type) : Type := {
  self : ElsSearch Entry DataFrame;
  trace : list (event Entry);
  next_addr : nat
}.

Arguments self {Entry DataFrame} _.
Arguments trace {Entry DataFrame} _.
Arguments next_addr {Entry DataFrame} _.

(** ** The progress bar

    [execute] creates a [tqdm.tqdm] bar, updates it after each page and
    closes it.  The bar does not touch the [ElsSearch] object, but each of
    its calls may raise (when it draws itself, tqdm converts its numbers to
    [float]; whether it draws depends on the time since it last did).  The
    bar is a collaborator with a state of its own: [tqdm_tqdm total] is
    [tqdm.tqdm(total=total, position=0, desc=..., unit=...)],
    [tqdm_update progress n] is [progress.update(n)], [tqdm_n progress] is
    [progress.n] and [tqdm_close progress] is [progress.close()]. *)
Class ProgressBar : Type := {
  tqdm : Type;
  tqdm_tqdm : Z -> exn + tqdm;
  tqdm_update : tqdm -> Z -> exn + tqdm;
  tqdm_n : tqdm -> Z;
  tqdm_close : tqdm -> option exn
}.

(** static / class variables *)
Definition _base_url : string := "https://api.elsevier.com/content/search/".
Definition _cursored_indexes : list string := ["scopus"].

Section ElsSearch.

Context {Entry DataFrame : Type} {progress_bar : ProgressBar}.

(** [pd.DataFrame(data)] and [recast_df] (of [elsapy.utils]) are used as
    black boxes. *)
Variable pd_DataFrame : option (list Entry) -> DataFrame.
Variable recast_df : DataFrame -> DataFrame.

Local Notation "'obj'" := (ElsSearch Entry DataFrame).
Local Notation "'St'" := (state Entry DataFrame).

Definition M (A : Type) : Type := St -> outcome A * St.

Definition ret {A} (a : A) : M A := fun st => (Ok a, st).

Definition raise {A} (e : exn) : M A := fun st => (Raise e, st).

Definition out_of_fuel {A} : M A := fun st => (OutOfFuel, st).

Definition bind {A B} (m : M A) (f : A -> M B) : M B :=
  fun st =>
    match m st with
    | (Ok a, st') => f a st'
    | (Raise e, st') => (Raise e, st')
    | (OutOfFuel, st') => (OutOfFuel, st')
    end.

Notation "x <- m ;; k" := (bind m (fun x => k))
  (at level 61, m at next level, right associativity).
Notation "m ;;; k" := (bind m (fun _ => k))
  (at level 61, right associativity).

(** *** Attribute access *)

Definition getattr {A} (name : string) (field : obj -> option A) : M A :=
  fun st =>
    match field (self st) with
    | Some v => (Ok v, st)
    | None => (Raise (AttributeError name), st)
    end.

Definition setattr (update : obj -> obj) : M unit :=
  fun st =>
    (Ok tt, {| self := update (self st);
               trace := trace st;
               next_addr := next_addr st |}).

Definition with_query (v : string) (o : obj) : obj :=
  {| _query := Some v; _index := _index o;
     _cursor_supported := _cursor_supported o; _uri := _uri o;
     results_df := results_df o; _results := _results o;
     _tot_num_res := _tot_num_res o |}.

Definition with_index (v : string) (o : obj) : obj :=
  {| _query := _query o; _index := Some v;
     _cursor_supported := _cursor_supported o; _uri := _uri o;
     results_df := results_df o; _results := _results o;
     _tot_num_res := _tot_num_res o |}.

Definition with_cursor_supported (v : bool) (o : obj) : obj :=
  {| _query := _query o; _index := _index o;
     _cursor_supported := Some v; _uri := _uri o;
     results_df := results_df o; _results := _results o;
     _tot_num_res := _tot_num_res o |}.

Definition with_uri (v : string) (o : obj) : obj :=
  {| _query := _query o; _index := _index o;
     _cursor_supported := _cursor_supported o; _uri := Some v;
     results_df := results_df o; _results := _results o;
     _tot_num_res := _tot_num_res o |}.

Definition with_results_df (v : DataFrame) (o : obj) : obj :=
  {| _query := _query o; _index := _index o;
     _cursor_supported := _cursor_supported o; _uri := _uri o;
     results_df := Some v; _results := _results o;
     _tot_num_res := _tot_num_res o |}.

Definition with_results (v : list Entry) (o : obj) : obj :=
  {| _query := _query o; _index := _index o;
     _cursor_supported := _cursor_supported o; _uri := _uri o;
     results_df := results_df o; _results := Some v;
     _tot_num_res := _tot_num_res o |}.

Definition with_tot_num_res (v : PyInt) (o : obj) : obj :=
  {| _query := _query o; _index := _index o;
     _cursor_supported := _cursor_supported o; _uri := _uri o;
     results_df := results_df o; _results := _results o;
     _tot_num_res := Some v |}.

(** The object [__init__] receives: no attribute set yet. *)
Definition blank : obj :=
  {| _query := None; _index := None; _cursor_supported := None;
     _uri := None; results_df := None; _results := None;
     _tot_num_res := None |}.

(** *** Builtins *)

(** The [int] object of value [z] that [int(...)] or [len(...)] returns: the
    shared one when [z] is small, otherwise an object at an address no
    earlier object has. *)
Definition new_int (z : Z) : M PyInt :=
  fun st =>
    if is_small_int z
    then (Ok {| ob_addr := SmallInt z; ob_ival := z |}, st)
    else (Ok {| ob_addr := HeapAddr (next_addr st); ob_ival := z |},
          {| self := self st; trace := trace st;
             next_addr := S (next_addr st) |}).

Definition len {A} (l : list A) : M PyInt := new_int (Z.of_nat (List.length l)).

(** [d[key]] on a parsed JSON object. *)
Definition getitem {A} (key : string) (field : option A) : M A :=
  match field with
  | Some v => ret v
  | None => raise (KeyError key)
  end.

(** Reading a local variable that may not have been assigned yet. *)
Definition load_local {A} (var : string) (v : option A) : M A :=
  match v with
  | Some x => ret x
  | None => raise (UnboundLocalError var)
  end.

(** A call on a collaborator that returns a value or raises. *)
Definition call {A} (r : exn + A) : M A :=
  match r with
  | inl e => raise e
  | inr a => ret a
  end.

(** [progress.close()] *)
Definition close (progress : tqdm) : M unit :=
  match tqdm_close progress with
  | Some e => raise e
  | None => ret tt
  end.

(** [els_client.exec_request(url)]: the request and its reply are logged. *)
Definition exec_request (c : ElsClient Entry) (url : string)
  : M (ApiResponse Entry) :=
  fun st =>
    let reply := c (map fst (trace st)) url in
    let st' := {| self := self st;
                  trace := trace st ++ [(url, reply)];
                  next_addr := next_addr st |} in
    match reply with
    | inl e => (Raise e, st')
    | inr r => (Ok r, st')
    end.

(** The method is looked up on [els_client] (which defaults to [None])
    before the argument is evaluated. *)
Definition call_exec_request (els_client : option (ElsClient Entry))
    (arg : M string) : M (ApiResponse Entry) :=
  match els_client with
  | None => raise (AttributeError "exec_request")
  | Some c => url <- arg ;; exec_request c url
  end.

(** *** class ElsSearch *)

(** [@query.setter] *)
Definition set_query (query : string) : M unit := setattr (with_query query).

(** [@property query] *)
Definition query : M string := getattr "_query" _query.

(** [@index.setter] *)
Definition set_index (index : string) : M unit := setattr (with_index index).

(** [@property index] *)
Definition index : M string := getattr "_index" _index.

(** [@property results] *)
Definition results : M (list Entry) := getattr "_results" _results.

(** [@property tot_num_res] *)
Definition tot_num_res : M PyInt := getattr "_tot_num_res" _tot_num_res.

(** [@property num_res]: [len(self.results)] *)
Definition num_res : M PyInt := r <- results ;; len r.

(** [@property uri] *)
Definition uri : M string := getattr "_uri" _uri.

Definition __init__ (query_arg index_arg : string) : M unit :=
  set_query query_arg ;;;
  set_index index_arg ;;;
  setattr (with_cursor_supported
             (existsb (String.eqb index_arg) _cursored_indexes)) ;;;
  i <- index ;;
  q <- query ;;
  setattr (with_uri (_base_url ++ i ++ "?query=" ++ url_encode q)) ;;;
  setattr (with_results_df (pd_DataFrame None)).

Definition _upper_limit_reached : M bool :=
  c <- getattr "_cursor_supported" _cursor_supported ;;
  if c then ret false
  else n <- num_res ;; ret (5000 <=? ob_ival n).

(** [for e in api_response["search-results"]["link"]: ...]: the loop has no
    [break], so the last link marked "next" is the one kept. *)
Fixpoint for_link (links : list Link) (next_url : option string)
  : M (option string) :=
  match links with
  | [] => ret next_url
  | e :: rest =>
      r <- getitem "@ref" (at_ref e) ;;
      if String.eqb r "next"
      then h <- getitem "@href" (at_href e) ;; for_link rest (Some h)
      else for_link rest next_url
  end.

(** The test of the [while] loop: [and] evaluates its right operand only
    when the left one is true. *)
Definition loop_test : M bool :=
  n <- num_res ;;
  t <- tot_num_res ;;
  if ob_ival n <? ob_ival t
  then lim <- _upper_limit_reached ;; ret (negb lim)
  else ret false.

(** The body of the [while] loop; its locals are [api_response],
    [next_url] and [progress], whose new values it returns. *)
Definition loop_body (els_client : option (ElsClient Entry)) (count : Z)
    (api_response : ApiResponse Entry) (next_url : option string)
    (progress : tqdm)
  : M (ApiResponse Entry * option string * tqdm) :=
  sr <- getitem "search-results" (search_results api_response) ;;
  links <- getitem "link" (link sr) ;;
  next_url <- for_link links next_url ;;
  api_response <- call_exec_request els_client
                    (load_local "next_url" next_url) ;;
  cur <- getattr "_results" _results ;;
  sr <- getitem "search-results" (search_results api_response) ;;
  page <- getitem "entry" (entry sr) ;;
  setattr (with_results (cur ++ page)) ;;;
  progress <- call (tqdm_update progress count) ;;
  ret (api_response, next_url, progress).

(** [while (self.num_res < self.tot_num_res) and not
    self._upper_limit_reached(): ...], at most [fuel] turns of it; it returns
    the progress bar as the last turn left it. *)
Fixpoint while_loop (fuel : nat) (els_client : option (ElsClient Entry))
    (count : Z) (api_response : ApiResponse Entry) (next_url : option string)
    (progress : tqdm)
  : M tqdm :=
  match fuel with
  | O => out_of_fuel
  | S fuel' =>
      go_on <- loop_test ;;
      if (go_on : bool)
      then locals <- loop_body els_client count api_response next_url
                       progress ;;
           while_loop fuel' els_client count (fst (fst locals))
             (snd (fst locals)) (snd locals)
      else ret progress
  end.

(** Lines 112-118 of [execute]: the address of the first request, built
    from [self._uri] by the three [if] statements in their order. *)
Definition first_url (url : string) (use_cursor : bool)
    (view : option string) (count : Z) : string :=
  let url := if use_cursor then url ++ "&cursor=*" else url in
  let url := match view with
             | Some v => if String.eqb v "" then url else url ++ "&view=" ++ v
             | None => url
             end in
  let url := if count =? 0 then url else url ++ "&count=" ++ str_of_int count in
  url.

(** Lines 136-148 of [execute]: the loop, the last update of the bar, its
    closing and the table. *)
Definition execute_rest (els_client : option (ElsClient Entry))
    (get_all : bool) (count : Z) (fuel : nat)
    (api_response : ApiResponse Entry) (progress : tqdm)
  : M unit :=
  progress <- (if get_all
               then progress <- while_loop fuel els_client count api_response
                                  None progress ;;
                    n <- num_res ;;
                    call (tqdm_update progress (ob_ival n - tqdm_n progress))
               else ret progress) ;;
  close progress ;;;
  (* convert to pandas dataframe *)
  r <- getattr "_results" _results ;;
  setattr (with_results_df (recast_df (pd_DataFrame (Some r)))).

Definition execute (els_client : option (ElsClient Entry)) (get_all : bool)
    (use_cursor : bool) (view : option string) (count : Z) (fuel : nat)
  : M unit :=
  url <- getattr "_uri" _uri ;;
  let url := first_url url use_cursor view count in
  (* retrieve search results *)
  api_response <- call_exec_request els_client (ret url) ;;
  sr <- getitem "search-results" (search_results api_response) ;;
  t <- getitem "opensearch:totalResults" (opensearch_totalResults sr) ;;
  tot <- new_int t ;;
  setattr (with_tot_num_res tot) ;;;
  (* add progress bar *)
  total <- getattr "_tot_num_res" _tot_num_res ;;
  progress <- call (tqdm_tqdm (ob_ival total)) ;;
  (* get results details *)
  sr <- getitem "search-results" (search_results api_response) ;;
  first_page <- getitem "entry" (entry sr) ;;
  setattr (with_results first_page) ;;;
  execute_rest els_client get_all count fuel api_response progress.

Definition hasAllResults : M bool :=
  n <- num_res ;;
  t <- tot_num_res ;;
  ret (py_is n t).

End ElsSearch.

Arguments M Entry DataFrame A : clear implicits.

(** ** What a run leaves in the request log *)

Section Log.

Context {Entry : Type} {progress_bar : ProgressBar}.

(** The two subscript chains of [execute] on a parsed response:
    [r["search-results"]["opensearch:totalResults"]] and
    [r["search-results"]["entry"]], with the [KeyError] of the first key
    that is absent. *)
Definition lookup_total (r : ApiResponse Entry) : exn + Z :=
  match search_results r with
  | None => inl (KeyError "search-results")
  | Some sr =>
      match opensearch_totalResults sr with
      | None => inl (KeyError "opensearch:totalResults")
      | Some t => inr t
      end
  end.

Definition lookup_entries (r : ApiResponse Entry) : exn + list Entry :=
  match search_results r with
  | None => inl (KeyError "search-results")
  | Some sr =>
      match entry sr with
      | None => inl (KeyError "entry")
      | Some page => inr page
      end
  end.


(** The entries a logged request brought: those of its reply when the
    request succeeded and the reply has them, none otherwise. *)
Definition event_entries (ev : event Entry) : list Entry :=
  match snd ev with
  | inr r => match lookup_entries r with
             | inr page => page
             | inl _ => []
             end
  | inl _ => []
  end.

Definition collected (evs : list (event Entry)) : list Entry :=
  flat_map event_entries evs.

(** The exception a reply makes a page fetch of the loop end with: the one
    the client raised, or the [KeyError] of the entries. *)
Definition page_failure (reply : exn + ApiResponse Entry) : option exn :=
  match reply with
  | inl e => Some e
  | inr r => match lookup_entries r with
             | inl e => Some e
             | inr _ => None
             end
  end.

(** The same for the first request: its reply is asked for the total, the
    progress bar is created with that total, and then the reply is asked for
    the entries. *)
Definition first_failure (reply : exn + ApiResponse Entry) : option exn :=
  match reply with
  | inl e => Some e
  | inr r => match lookup_total r with
             | inl e => Some e
             | inr t => match tqdm_tqdm t with
                        | inl e => Some e
                        | inr _ => page_failure reply
                        end
             end
  end.

(** A reply with its total left out, and the client [c] with the total left
    out of every reply after the one to request number [n] (the requests a
    client has served are counted from 0). *)
Definition without_total (r : ApiResponse Entry) : ApiResponse Entry :=
  {| search_results :=
       match search_results r with
       | Some sr => Some {| opensearch_totalResults := None;
                            entry := entry sr;
                            link := link sr |}
       | None => None
       end |}.

Definition without_later_totals (n : nat) (c : ElsClient Entry)
  : ElsClient Entry :=
  fun served url =>
    match c served url with
    | inl e => inl e
    | inr r => if (List.length served <=? n)%nat then inr r
               else inr (without_total r)
    end.




End Log.

(** ** A progress bar for concrete runs

    tqdm as it behaves when the pages follow each other within its minimum
    interval: the bar is drawn when it is created, which adds [0.5] to the
    total and so raises [OverflowError] for a total that does not fit a
    [float] (from [2^1024 - 2^970] on, in absolute value); the updates only
    count. *)
Record Bar : Type := { bar_total : Z; bar_n : Z }.

Definition float_limit : Z := Eval vm_compute in (2 ^ 1024 - 2 ^ 970).

Definition float_overflows (z : Z) : bool := float_limit <=? Z.abs z.

#[global] Instance counting_bar : ProgressBar := {|
  tqdm := Bar;
  tqdm_tqdm total :=
    if float_overflows total
    then inl (OverflowError "int too large to convert to float")
    else inr {| bar_total := total; bar_n := 0 |};
  tqdm_update progress n :=
    inr {| bar_total := bar_total progress; bar_n := bar_n progress + n |};
  tqdm_n := bar_n;
  tqdm_close _ := None
|}.

(** ** Concrete sessions

    A symbolic table (the data it was built from and the recasts applied to
    it) stands for pandas when a run is evaluated. *)
Inductive Frame (Entry : Type) : Type :=
| Frame_of (data : option (list Entry))
| Recast (df : Frame Entry).

Arguments Frame_of {Entry} data.
Arguments Recast {Entry} df.

Module Scenario.

(** The interpreter before the object exists. *)
Definition start {Entry : Type} : state Entry (Frame Entry) :=
  {| self := blank; trace := []; next_addr := 0 |}.

(** [ElsSearch(query, index)] *)
Definition construct {Entry : Type} (query index : string)
  : state Entry (Frame Entry) :=
  snd (__init__ Frame_of query index start).

(** [srch.execute(els_client, get_all, use_cursor, view, count)] *)
Definition run {Entry : Type} (c : ElsClient Entry) (get_all use_cursor : bool)
    (view : option string) (count : Z) (fuel : nat)
    (st : state Entry (Frame Entry))
  : outcome unit * state Entry (Frame Entry) :=
  execute Frame_of Recast (Some c) get_all use_cursor view count fuel st.

Definition a_link (ref href : string) : Link :=
  {| at_ref := Some ref; at_href := Some href |}.

Definition response {Entry : Type} (total : option Z)
    (entries : option (list Entry)) (links : option (list Link))
  : ApiResponse Entry :=
  {| search_results :=
       Some {| opensearch_totalResults := total;
               entry := entries;
               link := links |} |}.

(** A server that holds [total] records numbered from 0 and serves them in
    pages of [size], each page advertising the next one. *)
Definition page (size : nat) (total : Z) (k : nat) : ApiResponse nat :=
  response (Some total) (Some (seq (k * size) size))
    (Some [a_link "self" ("page" ++ str_of_int (Z.of_nat k));
           a_link "next" ("page" ++ str_of_int (Z.of_nat (S k)))]).

Definition paged (size : nat) (total : Z) : ElsClient nat :=
  fun served _ => inr (page size total (List.length served)).

(** A server that answers the k-th request with the k-th reply of a script
    and refuses any further request. *)
Definition scripted {Entry : Type} (script : list (exn + ApiResponse Entry))
  : ElsClient Entry :=
  fun served _ => nth (List.length served) script
                    (inl (ClientError "connection refused")).

(** Scenario A of the specification. *)
Definition scenario_A : ElsClient string :=
  scripted [inr (response (Some 3) (Some ["e1"; "e2"; "e3"]) (Some []))].

(** Three records in pages of one; the second page advertises no next page. *)
Definition stale_next : ElsClient string :=
  scripted
    [inr (response (Some 3) (Some ["e1"]) (Some [a_link "next" "page1"]));
     inr (response (Some 3) (Some ["e2"]) (Some [a_link "self" "page1"]));
     inr (response (Some 3) (Some ["e3"]) (Some []))].


(** The second page carries no total. *)
Definition total_only_first : ElsClient string :=
  scripted
    [inr (response (Some 2) (Some ["e1"]) (Some [a_link "next" "page1"]));
     inr (response None (Some ["e2"]) (Some []))].

(** The second page has no entries. *)
Definition no_entries_second : ElsClient string :=
  scripted
    [inr (response (Some 2) (Some ["e1"]) (Some [a_link "next" "page1"]));
     inr (response (Some 2) None (Some []))].

(** The third request fails. *)
Definition fails_third : ElsClient string :=
  scripted
    [inr (response (Some 5) (Some ["e1"; "e2"]) (Some [a_link "next" "page1"]));
     inr (response (Some 5) (Some ["e3"; "e4"]) (Some [a_link "next" "page2"]));
     inl (ClientError "HTTP 500")].

End Scenario.

(** Further servers, for the properties beyond the pagination claims. *)
Module Servers.










End Servers.

(** ** Relations between the states of a run *)

Section Steps.

Context {Entry DataFrame : Type} {progress_bar : ProgressBar}.

Local Notation "'St'" := (state Entry DataFrame).

(** Two states that differ at most in the allocator. *)
Definition same_session (st st' : St) : Prop :=
  self st' = self st /\ trace st' = trace st.

(** What one turn of the body does to the log and to the object. *)
Inductive body_step (c : ElsClient Entry) (count : Z) (progress : tqdm)
    (st : St)
  : outcome (ApiResponse Entry * option string * tqdm) -> St -> Prop :=
| body_no_request e :
    body_step c count progress st (Raise e) st
| body_fetch_failed url e :
    c (map fst (trace st)) url = inl e ->
    body_step c count progress st (Raise e)
      {| self := self st; trace := trace st ++ [(url, inl e)];
         next_addr := next_addr st |}
| body_no_results url r :
    c (map fst (trace st)) url = inr r ->
    _results (self st) = None ->
    body_step c count progress st (Raise (AttributeError "_results"))
      {| self := self st; trace := trace st ++ [(url, inr r)];
         next_addr := next_addr st |}
| body_no_entries url r e :
    c (map fst (trace st)) url = inr r ->
    lookup_entries r = inl e ->
    body_step c count progress st (Raise e)
      {| self := self st; trace := trace st ++ [(url, inr r)];
         next_addr := next_addr st |}
| body_update_failed url r cur page e :
    c (map fst (trace st)) url = inr r ->
    _results (self st) = Some cur ->
    lookup_entries r = inr page ->
    tqdm_update progress count = inl e ->
    body_step c count progress st (Raise e)
      {| self := with_results (cur ++ page) (self st);
         trace := trace st ++ [(url, inr r)];
         next_addr := next_addr st |}
| body_page url r cur page nu progress' :
    c (map fst (trace st)) url = inr r ->
    _results (self st) = Some cur ->
    lookup_entries r = inr page ->
    tqdm_update progress count = inr progress' ->
    body_step c count progress st (Ok (r, nu, progress'))
      {| self := with_results (cur ++ page) (self st);
         trace := trace st ++ [(url, inr r)];
         next_addr := next_addr st |}.

(** Two states with the same object and the same requests in the log, with
    whatever replies. *)
Definition same_requests (st st' : St) : Prop :=
  self st' = self st /\ map fst (trace st') = map fst (trace st).

(** Two replies with the same entries and the same links. *)
Definition same_page (r r' : ApiResponse Entry) : Prop :=
  lookup_entries r' = lookup_entries r
  /\ option_map link (search_results r') = option_map link (search_results r).

(** Every attribute but [_results] is the same in the two objects. *)
Definition same_but_results (o o' : ElsSearch Entry DataFrame) : Prop :=
  _query o' = _query o
  /\ _index o' = _index o
  /\ _cursor_supported o' = _cursor_supported o
  /\ _uri o' = _uri o
  /\ results_df o' = results_df o
  /\ _tot_num_res o' = _tot_num_res o.

End Steps.

(** * Properties *)



Section Properties.

Local Open Scope list_scope.

Context {Entry DataFrame : Type} {progress_bar : ProgressBar}.
Variable pd_DataFrame : option (list Entry) -> DataFrame.
Variable recast_df : DataFrame -> DataFrame.

Local Notation "'St'" := (state Entry DataFrame).

(** Unfolds the monad operations of a run and the projections of the states
    they build. *)
Ltac mstep :=
  cbv [bind ret raise out_of_fuel getitem getattr setattr load_local
       call_exec_request exec_request call close];
  cbn [fst snd self trace next_addr].

Lemma same_session_refl (st : St) : same_session st st.
Proof. split; reflexivity. Qed.

Lemma same_session_trans (st1 st2 st3 : St) :
  same_session st1 st2 -> same_session st2 st3 -> same_session st1 st3.
Proof. intros [A B] [C D]; split; congruence. Qed.

Lemma new_int_run z (st : St) :
  exists a st', new_int z st = (Ok {| ob_addr := a; ob_ival := z |}, st')
                /\ same_session st st'.
Proof.
  unfold new_int. destruct (is_small_int z); eexists; eexists;
    (split; [reflexivity | split; reflexivity]).
Qed.

Lemma num_res_run (st : St) :
  match _results (self st) with
  | Some r => exists a st',
      num_res st = (Ok {| ob_addr := a; ob_ival := Z.of_nat (List.length r) |}, st')
      /\ same_session st st'
  | None => num_res st = (Raise (AttributeError "_results"), st)
  end.
Proof.
  unfold num_res, results, bind, getattr, len.
  destruct (_results (self st)) as [r|]; [|reflexivity].
  destruct (new_int_run (Z.of_nat (List.length r)) st) as (a & st' & E & S).
  exists a, st'. now rewrite E.
Qed.

(** ** The setters (C9) *)

(** C9: assigning to [query] or [index] after construction changes neither
    [_uri] (nor what the property [uri] returns) nor [_cursor_supported]:
    the setters store [_query] and [_index] and nothing else. *)
Theorem setters_leave_uri_and_cursor_flag :
  forall (q i : string) (st : St),
    _uri (self (snd (set_query q st))) = _uri (self st)
    /\ _cursor_supported (self (snd (set_query q st))) = _cursor_supported (self st)
    /\ fst (uri (snd (set_query q st))) = fst (uri st)
    /\ _uri (self (snd (set_index i st))) = _uri (self st)
    /\ _cursor_supported (self (snd (set_index i st))) = _cursor_supported (self st)
    /\ fst (uri (snd (set_index i st))) = fst (uri st).
Proof.
  intros q i st. unfold set_query, set_index, setattr, uri, getattr; simpl.
  repeat split; try reflexivity; destruct (_uri (self st)); reflexivity.
Qed.

(** ** Construction (C6) *)

Lemma init_run (q i : string) (st : St) :
  __init__ pd_DataFrame q i st =
    (Ok tt,
     {| self := {| _query := Some q;
                   _index := Some i;
                   _cursor_supported := Some (existsb (String.eqb i) _cursored_indexes);
                   _uri := Some (_base_url ++ i ++ "?query=" ++ url_encode q)%string;
                   results_df := Some (pd_DataFrame None);
                   _results := _results (self st);
                   _tot_num_res := _tot_num_res (self st) |};
        trace := trace st;
        next_addr := next_addr st |}).
Proof. reflexivity. Qed.

(** C6 (amended): construction succeeds for every query and every index,
    the empty index included, and sends no request: it stores the two
    arguments, the cursor flag and the request address. *)
Theorem init_accepts_any_index :
  forall (q i : string) (st : St),
    exists st',
      __init__ pd_DataFrame q i st = (Ok tt, st')
      /\ trace st' = trace st
      /\ _query (self st') = Some q
      /\ _index (self st') = Some i
      /\ _cursor_supported (self st') = Some (existsb (String.eqb i) _cursored_indexes)
      /\ _uri (self st') = Some (_base_url ++ i ++ "?query=" ++ url_encode q)%string.
Proof.
  intros q i st. eexists. rewrite init_run. repeat split; reflexivity.
Qed.

(** ** The limit policy (C4) *)

Lemma upper_limit_run (st : St) :
  exists st',
    same_session st st'
    /\ _upper_limit_reached st =
         (match _cursor_supported (self st) with
          | None => Raise (AttributeError "_cursor_supported")
          | Some true => Ok false
          | Some false =>
              match _results (self st) with
              | None => Raise (AttributeError "_results")
              | Some r => Ok (5000 <=? Z.of_nat (List.length r))
              end
          end, st').
Proof.
  unfold _upper_limit_reached, bind, getattr, ret.
  destruct (_cursor_supported (self st)) as [[|]|].
  - exists st. split; [apply same_session_refl | reflexivity].
  - pose proof (num_res_run st) as H.
    destruct (_results (self st)) as [r|].
    + destruct H as (a & st' & E & S). exists st'. rewrite E. now split.
    + exists st. rewrite H. split; [apply same_session_refl | reflexivity].
  - exists st. split; [apply same_session_refl | reflexivity].
Qed.

(** C4: [_upper_limit_reached] returns [True] exactly when the cursor flag
    of the session is off and [len(results) >= 5000]; when the flag is on it
    returns [False] whatever the results are, even before any exists. *)
Theorem upper_limit_reached_iff :
  forall st : St,
    (fst (_upper_limit_reached st) = Ok true <->
       _cursor_supported (self st) = Some false
       /\ exists r, _results (self st) = Some r
                    /\ 5000 <= Z.of_nat (List.length r))
    /\ (_cursor_supported (self st) = Some true ->
        fst (_upper_limit_reached st) = Ok false).
Proof.
  intros st. destruct (upper_limit_run st) as (st' & _ & E). rewrite E. simpl.
  split.
  - destruct (_cursor_supported (self st)) as [[|]|].
    + split; [discriminate | intros [H _]; discriminate].
    + destruct (_results (self st)) as [r|].
      * split.
        -- intros H. split; [reflexivity|]. exists r. split; [reflexivity|].
           injection H as H. apply Z.leb_le in H. lia.
        -- intros (_ & r' & R & L). injection R as <-. f_equal.
           apply Z.leb_le. lia.
      * split; [discriminate | intros (_ & r & R & _); discriminate].
    + split; [discriminate | intros [H _]; discriminate].
  - intros ->. reflexivity.
Qed.

(** ** One turn of the loop *)

Lemma loop_test_run (st : St) :
  exists st',
    same_session st st'
    /\ loop_test st =
         (match _results (self st) with
          | None => Raise (AttributeError "_results")
          | Some r =>
              match _tot_num_res (self st) with
              | None => Raise (AttributeError "_tot_num_res")
              | Some t =>
                  if Z.of_nat (List.length r) <? ob_ival t
                  then match _cursor_supported (self st) with
                       | None => Raise (AttributeError "_cursor_supported")
                       | Some true => Ok true
                       | Some false => Ok (negb (5000 <=? Z.of_nat (List.length r)))
                       end
                  else Ok false
              end
          end, st').
Proof.
  unfold loop_test, bind.
  pose proof (num_res_run st) as H.
  destruct (_results (self st)) as [r|] eqn:R.
  - destruct H as (a & st1 & E & S1). rewrite E.
    destruct S1 as [S1 T1].
    unfold tot_num_res, getattr. rewrite S1.
    destruct (_tot_num_res (self st)) as [t|].
    + cbn [ob_ival].
      destruct (Z.of_nat (List.length r) <? ob_ival t).
      * cbv beta.
        destruct (upper_limit_run st1) as (st2 & S2 & E2). rewrite E2, S1, R.
        exists st2. split.
        { apply same_session_trans with st1; [split; assumption | assumption]. }
        destruct (_cursor_supported (self st)) as [[|]|]; reflexivity.
      * exists st1. split; [split; assumption | reflexivity].
    + exists st1. split; [split; assumption | reflexivity].
  - rewrite H. exists st. split; [apply same_session_refl | reflexivity].
Qed.

Lemma for_link_run (links : list Link) (nu : option string) (st : St) :
  exists out, for_link links nu st = (out, st) /\ out <> OutOfFuel.
Proof.
  revert nu. induction links as [|e rest IH]; intros nu; simpl.
  - eexists; split; [reflexivity | discriminate].
  - unfold bind, getitem.
    destruct (at_ref e) as [ref|]; simpl.
    + destruct (String.eqb ref "next").
      * destruct (at_href e) as [h|]; simpl; [apply IH|].
        eexists; split; [reflexivity | discriminate].
      * apply IH.
    + eexists; split; [reflexivity | discriminate].
Qed.


Lemma loop_body_run c count (r : ApiResponse Entry) nu p (st : St) :
  body_step c count p st (fst (loop_body (Some c) count r nu p st))
                         (snd (loop_body (Some c) count r nu p st)).
Proof.
  unfold loop_body, bind, getitem.
  destruct (search_results r) as [sr|]; simpl; [|apply body_no_request].
  destruct (link sr) as [links|]; simpl; [|apply body_no_request].
  destruct (for_link_run links nu st) as (o & E & NF). rewrite E.
  destruct o as [nu'| e |]; simpl; [| apply body_no_request | congruence].
  unfold call_exec_request, bind, load_local.
  destruct nu' as [url|]; simpl; [|apply body_no_request].
  unfold exec_request.
  destruct (c (map fst (trace st)) url) as [e|r'] eqn:C; simpl.
  { now apply body_fetch_failed. }
  unfold getattr; simpl.
  destruct (_results (self st)) as [cur|] eqn:R; simpl.
  2:{ now apply body_no_results. }
  destruct (search_results r') as [sr'|] eqn:SR; simpl.
  - destruct (entry sr') as [page|] eqn:EN; simpl.
    + assert (L : lookup_entries r' = inr page).
      { unfold lookup_entries. now rewrite SR, EN. }
      unfold setattr, call. simpl.
      destruct (tqdm_update p count) as [e|p'] eqn:UP; simpl.
      * now apply body_update_failed.
      * now apply body_page.
    + apply body_no_entries; [assumption|].
      unfold lookup_entries. now rewrite SR, EN.
  - apply body_no_entries; [assumption|].
    unfold lookup_entries. now rewrite SR.
Qed.

(** ** The loop *)

(** One turn of [while_loop]. *)
Lemma while_loop_S (c : ElsClient Entry) (count : Z) (fuel : nat)
    (r : ApiResponse Entry) (nu : option string) (p : tqdm) (st : St) :
  while_loop (S fuel) (Some c) count r nu p st =
    match loop_test st with
    | (Ok true, st1) =>
        match loop_body (Some c) count r nu p st1 with
        | (Ok (r', nu', p'), st2) => while_loop fuel (Some c) count r' nu' p' st2
        | (Raise e, st2) => (Raise e, st2)
        | (OutOfFuel, st2) => (OutOfFuel, st2)
        end
    | (Ok false, st1) => (Ok p, st1)
    | (Raise e, st1) => (Raise e, st1)
    | (OutOfFuel, st1) => (OutOfFuel, st1)
    end.
Proof.
  cbn [while_loop]. unfold bind.
  destruct (loop_test st) as [[[|]|e|] st1]; try reflexivity.
  destruct (loop_body (Some c) count r nu p st1) as [[[[r' nu'] p']|e|] st2];
    reflexivity.
Qed.

(** The three ways the test of the loop can end. *)
Lemma loop_test_cases (st : St) :
  exists st1,
    same_session st st1
    /\ ((exists e, loop_test st = (Raise e, st1))
        \/ (loop_test st = (Ok false, st1)
            /\ exists cur t,
                 _results (self st) = Some cur
                 /\ _tot_num_res (self st) = Some t
                 /\ (ob_ival t <= Z.of_nat (List.length cur)
                     \/ (_cursor_supported (self st) = Some false
                         /\ 5000 <= Z.of_nat (List.length cur))))
        \/ (loop_test st = (Ok true, st1)
            /\ exists cur t,
                 _results (self st) = Some cur
                 /\ _tot_num_res (self st) = Some t
                 /\ Z.of_nat (List.length cur) < ob_ival t
                 /\ (_cursor_supported (self st) = Some true
                     \/ (_cursor_supported (self st) = Some false
                         /\ Z.of_nat (List.length cur) < 5000)))).
Proof.
  destruct (loop_test_run st) as (st1 & SS & E). exists st1.
  split; [exact SS|]. rewrite E.
  destruct (_results (self st)) as [cur|]; [|left; eexists; reflexivity].
  destruct (_tot_num_res (self st)) as [t|]; [|left; eexists; reflexivity].
  destruct (Z.ltb_spec (Z.of_nat (List.length cur)) (ob_ival t)) as [L|L].
  - destruct (_cursor_supported (self st)) as [[|]|];
      [| | left; eexists; reflexivity].
    + right. right. split; [reflexivity|]. exists cur, t. auto.
    + destruct (Z.leb_spec 5000 (Z.of_nat (List.length cur))) as [L5|L5];
        cbn [negb].
      * right. left. split; [reflexivity|]. exists cur, t. auto.
      * right. right. split; [reflexivity|]. exists cur, t. auto 6.
  - right. left. split; [reflexivity|]. exists cur, t. auto.
Qed.

Lemma same_but_results_refl (o : ElsSearch Entry DataFrame) :
  same_but_results o o.
Proof. repeat split. Qed.

Lemma option_map_app_nil (o : option (list Entry)) :
  o = option_map (fun cur => cur ++ collected []) o.
Proof. destruct o; simpl; [now rewrite app_nil_r | reflexivity]. Qed.

Lemma collected_cons (ev : event Entry) (evs : list (event Entry)) :
  collected (ev :: evs) = event_entries ev ++ collected evs.
Proof. reflexivity. Qed.

Lemma collected_app (l1 l2 : list (event Entry)) :
  collected (l1 ++ l2) = collected l1 ++ collected l2.
Proof. unfold collected. apply flat_map_app. Qed.

Lemma event_entries_page (url : string) (r : ApiResponse Entry)
    (page : list Entry) :
  lookup_entries r = inr page -> event_entries (url, inr r) = page.
Proof. intros L. unfold event_entries. simpl. now rewrite L. Qed.

Lemma event_entries_failure (ev : event Entry) (e : exn) :
  page_failure (snd ev) = Some e -> event_entries ev = [].
Proof.
  unfold page_failure, event_entries. destruct (snd ev) as [e'|r]; [reflexivity|].
  destruct (lookup_entries r); [reflexivity | discriminate].
Qed.

(** The loop only appends to the log and to [_results]: the results grow by
    the entries of the pages fetched, and a page that fails (the client
    raises, or the reply has no entries) ends the loop with its exception
    and is the last request sent. *)
Lemma while_loop_run (c : ElsClient Entry) (count : Z) (fuel : nat) :
  forall (r : ApiResponse Entry) (nu : option string) (p : tqdm) (st : St),
  exists evs,
    trace (snd (while_loop fuel (Some c) count r nu p st)) = trace st ++ evs
    /\ _results (self (snd (while_loop fuel (Some c) count r nu p st))) =
         option_map (fun cur => cur ++ collected evs) (_results (self st))
    /\ same_but_results (self st)
         (self (snd (while_loop fuel (Some c) count r nu p st)))
    /\ forall k ev e,
         nth_error evs k = Some ev ->
         page_failure (snd ev) = Some e ->
         fst (while_loop fuel (Some c) count r nu p st) = Raise e
         /\ List.length evs = S k.
Proof.
  induction fuel as [|fuel IH]; intros r nu p st.
  - exists []. simpl. rewrite app_nil_r.
    split; [reflexivity|]. split; [apply option_map_app_nil|].
    split; [apply same_but_results_refl|].
    intros [|k] ev e H; discriminate.
  - rewrite while_loop_S.
    destruct (loop_test_cases st) as (st1 & [S1 T1] & H).
    assert (stop : forall o : outcome tqdm,
               exists evs : list (event Entry),
                 trace st1 = trace st ++ evs
                 /\ _results (self st1) =
                      option_map (fun cur => cur ++ collected evs)
                        (_results (self st))
                 /\ same_but_results (self st) (self st1)
                 /\ forall k ev e,
                      nth_error evs k = Some ev ->
                      page_failure (snd ev) = Some e ->
                      o = Raise e /\ List.length evs = S k).
    { intros o. exists []. rewrite app_nil_r, S1, T1.
      split; [reflexivity|]. split; [apply option_map_app_nil|].
      split; [apply same_but_results_refl|].
      intros [|k] ev e X; discriminate. }
    destruct H as [(e & E) | [(E & _) | (E & cur0 & t & R0 & _)]]; rewrite E.
    + apply (stop (Raise e)).
    + apply (stop (Ok p)).
    + pose proof (loop_body_run c count r nu p st1) as B.
      destruct (loop_body (Some c) count r nu p st1) as [ob stb]. simpl in B.
      inversion B as [e | url e C | url r' C R | url r' e C L
                      | url r' cur page e C R L UP
                      | url r' cur page nu' p' C R L UP]; subst.
      * exists []. cbn [fst snd]. rewrite app_nil_r, S1, T1, R0.
        split; [reflexivity|]. split; [simpl; now rewrite app_nil_r|].
        split; [apply same_but_results_refl|].
        intros [|k] ev e' X; discriminate.
      * exists [(url, inl e)]. cbn [fst snd self trace]. rewrite S1, T1, R0.
        split; [reflexivity|]. split; [simpl; now rewrite app_nil_r|].
        split; [apply same_but_results_refl|].
        intros [|[|k]] ev e' X P; try discriminate.
        injection X as <-. simpl in P. injection P as <-. now split.
      * rewrite S1 in R. congruence.
      * exists [(url, inr r')]. cbn [fst snd self trace]. rewrite S1, T1, R0.
        split; [reflexivity|].
        split.
        { simpl. rewrite (event_entries_failure (url, inr r') e).
          - now rewrite app_nil_r.
          - unfold page_failure. cbn [snd]. now rewrite L. }
        split; [apply same_but_results_refl|].
        intros [|[|k]] ev e' X P; try discriminate.
        injection X as <-. simpl in P. rewrite L in P. injection P as <-.
        now split.
      * rewrite S1, R0 in R. injection R as <-.
        exists [(url, inr r')]. cbn [fst snd self trace _results with_results].
        rewrite T1.
        split; [reflexivity|].
        split.
        { rewrite R0. cbn [option_map].
          rewrite collected_cons, (event_entries_page url r' page L).
          unfold collected. simpl. now rewrite app_nil_r. }
        split.
        { rewrite S1. repeat split. }
        intros [|[|k]] ev e' X P; try discriminate.
        injection X as <-. simpl in P. rewrite L in P. discriminate.
      * rewrite S1, R0 in R. injection R as <-.
        set (st2 := {| self := with_results (cur0 ++ page) (self st1);
                       trace := trace st1 ++ [(url, inr r')];
                       next_addr := next_addr st1 |}).
        destruct (IH r' nu' p' st2) as (evs & T & RS & SB & F).
        exists ((url, inr r') :: evs).
        split; [|split; [|split]].
        -- rewrite T. simpl. rewrite T1, <- app_assoc. reflexivity.
        -- rewrite RS. unfold st2. cbn [self _results with_results]. rewrite R0.
           cbn [option_map].
           rewrite collected_cons, (event_entries_page url r' page L).
           now rewrite <- app_assoc.
        -- destruct SB as (A1 & A2 & A3 & A4 & A5 & A6). simpl in *.
           rewrite S1 in *. repeat split; assumption.
        -- intros [|k] ev e' X P.
           ++ injection X as <-. simpl in P. rewrite L in P. discriminate.
           ++ destruct (F k ev e' X P) as [F1 F2]. split; [assumption|].
              simpl. f_equal. exact F2.
Qed.


(** ** [execute] *)


Lemma lookup_total_inv (r : ApiResponse Entry) (t : Z) :
  lookup_total r = inr t ->
  exists sr, search_results r = Some sr /\ opensearch_totalResults sr = Some t.
Proof.
  unfold lookup_total. destruct (search_results r) as [sr|]; [|discriminate].
  destruct (opensearch_totalResults sr) as [t'|] eqn:E; [|discriminate].
  intros H. injection H as ->. now exists sr.
Qed.

Lemma lookup_entries_inv (r : ApiResponse Entry) (page : list Entry) :
  lookup_entries r = inr page ->
  exists sr, search_results r = Some sr /\ entry sr = Some page.
Proof.
  unfold lookup_entries. destruct (search_results r) as [sr|]; [|discriminate].
  destruct (entry sr) as [p|] eqn:E; [|discriminate].
  intros H. injection H as ->. now exists sr.
Qed.

(** The first part of [execute], up to the assignment of [_results]: when
    the first reply has a total the bar accepts, and entries, the call goes
    on with the rest of the method on the object that holds the total and
    the first page. *)
Lemma execute_start (c : ElsClient Entry) (get_all use_cursor : bool)
    (view : option string) (count : Z) (fuel : nat) (st : St) (u : string)
    (r : ApiResponse Entry) (t : Z) (p0 : tqdm) (page : list Entry) :
  _uri (self st) = Some u ->
  c (map fst (trace st)) (first_url u use_cursor view count) = inr r ->
  lookup_total r = inr t ->
  tqdm_tqdm t = inr p0 ->
  lookup_entries r = inr page ->
  execute pd_DataFrame recast_df (Some c) get_all use_cursor view count fuel st =
    execute_rest pd_DataFrame recast_df (Some c) get_all count fuel r p0
      {| self := with_results page
                   (with_tot_num_res
                      {| ob_addr := if is_small_int t then SmallInt t
                                    else HeapAddr (next_addr st);
                         ob_ival := t |} (self st));
         trace := trace st ++ [(first_url u use_cursor view count, inr r)];
         next_addr := if is_small_int t then next_addr st
                      else S (next_addr st) |}.
Proof.
  intros U C LT BAR LE.
  destruct (lookup_total_inv r t LT) as (sr & SR & TOT).
  destruct (lookup_entries_inv r page LE) as (sr' & SR' & EN).
  rewrite SR in SR'. injection SR' as <-.
  unfold execute. mstep. rewrite U. mstep. rewrite C. mstep.
  rewrite SR. mstep. rewrite TOT. mstep.
  unfold new_int. destruct (is_small_int t); mstep;
    cbn [_tot_num_res with_tot_num_res ob_ival]; rewrite BAR; mstep;
    rewrite EN; reflexivity.
Qed.

(** A call of [execute] either ends before [_results] is assigned, with the
    exception [first_failure] tells, or it has a first page and goes on. *)
Lemma execute_cases (c : ElsClient Entry) (use_cursor : bool)
    (view : option string) (count : Z) (st : St) (u : string) :
  _uri (self st) = Some u ->
  (exists e,
      first_failure (c (map fst (trace st))
                       (first_url u use_cursor view count)) = Some e
      /\ forall get_all fuel,
           fst (execute pd_DataFrame recast_df (Some c) get_all use_cursor
                  view count fuel st) = Raise e
           /\ trace (snd (execute pd_DataFrame recast_df (Some c) get_all
                            use_cursor view count fuel st)) =
                trace st ++ [(first_url u use_cursor view count,
                              c (map fst (trace st))
                                (first_url u use_cursor view count))]
           /\ _results (self (snd (execute pd_DataFrame recast_df (Some c)
                                     get_all use_cursor view count fuel st))) =
                _results (self st)
           /\ results_df (self (snd (execute pd_DataFrame recast_df (Some c)
                                       get_all use_cursor view count fuel st))) =
                results_df (self st))
  \/ (exists r t p0 page,
        c (map fst (trace st)) (first_url u use_cursor view count) = inr r
        /\ lookup_total r = inr t
        /\ tqdm_tqdm t = inr p0
        /\ lookup_entries r = inr page
        /\ first_failure (c (map fst (trace st))
                            (first_url u use_cursor view count)) = None).
Proof.
  intros U.
  set (url := first_url u use_cursor view count).
  destruct (c (map fst (trace st)) url) as [e|r] eqn:C.
  { left. exists e. split; [reflexivity|]. intros get_all fuel.
    unfold execute. mstep. rewrite U. mstep. fold url. rewrite C. mstep.
    repeat split. }
  unfold first_failure, page_failure, lookup_total, lookup_entries.
  destruct (search_results r) as [sr|] eqn:SR.
  2:{ left. eexists. split; [reflexivity|]. intros get_all fuel.
      unfold execute. mstep. rewrite U. mstep. fold url. rewrite C. mstep.
      rewrite SR. mstep. repeat split. }
  destruct (opensearch_totalResults sr) as [t|] eqn:TOT.
  2:{ left. eexists. split; [reflexivity|]. intros get_all fuel.
      unfold execute. mstep. rewrite U. mstep. fold url. rewrite C. mstep.
      rewrite SR. mstep. rewrite TOT. mstep. repeat split. }
  destruct (tqdm_tqdm t) as [e|p0] eqn:BAR.
  { left. exists e. split; [reflexivity|]. intros get_all fuel.
    unfold execute. mstep. rewrite U. mstep. fold url. rewrite C. mstep.
    rewrite SR. mstep. rewrite TOT. mstep.
    unfold new_int. destruct (is_small_int t); mstep;
      cbn [_tot_num_res with_tot_num_res ob_ival]; rewrite BAR; mstep;
      repeat split. }
  destruct (entry sr) as [page|] eqn:EN.
  2:{ left. eexists. split; [reflexivity|]. intros get_all fuel.
      unfold execute. mstep. rewrite U. mstep. fold url. rewrite C. mstep.
      rewrite SR. mstep. rewrite TOT. mstep.
      unfold new_int. destruct (is_small_int t); mstep;
        cbn [_tot_num_res with_tot_num_res ob_ival]; rewrite BAR; mstep;
        rewrite EN; mstep; repeat split. }
  right. exists r, t, p0, page. unfold lookup_total, lookup_entries.
  rewrite SR, TOT, EN. repeat split; try reflexivity; assumption.
Qed.

(** The rest of [execute] without the loop: the bar is closed and the table
    built. *)
Lemma execute_rest_single (els_client : option (ElsClient Entry)) (count : Z)
    (fuel : nat) (r : ApiResponse Entry) (p : tqdm) (st : St) :
  execute_rest pd_DataFrame recast_df els_client false count fuel r p st =
    match tqdm_close p with
    | Some e => (Raise e, st)
    | None =>
        match _results (self st) with
        | Some res =>
            (Ok tt,
             {| self := with_results_df (recast_df (pd_DataFrame (Some res)))
                          (self st);
                trace := trace st; next_addr := next_addr st |})
        | None => (Raise (AttributeError "_results"), st)
        end
    end.
Proof.
  unfold execute_rest. mstep.
  destruct (tqdm_close p); [reflexivity|].
  destruct (_results (self st)); reflexivity.
Qed.

(** The rest of [execute] with the loop: an exception of the loop ends the
    call; when the loop returns, the bar is set to the number of results and
    closed, and the table is built from the results. *)
Lemma execute_rest_loop (c : ElsClient Entry) (count : Z) (fuel : nat)
    (r : ApiResponse Entry) (p : tqdm) (st : St) :
  match while_loop fuel (Some c) count r None p st with
  | (Ok pw, stw) =>
      match _results (self stw) with
      | None =>
          execute_rest pd_DataFrame recast_df (Some c) true count fuel r p st =
            (Raise (AttributeError "_results"), stw)
      | Some res =>
          exists stn,
            same_session stw stn
            /\ (next_addr stw <= next_addr stn)%nat
            /\ execute_rest pd_DataFrame recast_df (Some c) true count fuel r p
                 st =
               match tqdm_update pw (Z.of_nat (List.length res) - tqdm_n pw) with
               | inl e => (Raise e, stn)
               | inr pf =>
                   match tqdm_close pf with
                   | Some e => (Raise e, stn)
                   | None =>
                       (Ok tt,
                        {| self := with_results_df
                                     (recast_df (pd_DataFrame (Some res)))
                                     (self stn);
                           trace := trace stn; next_addr := next_addr stn |})
                   end
               end
      end
  | (Raise e, stw) =>
      execute_rest pd_DataFrame recast_df (Some c) true count fuel r p st =
        (Raise e, stw)
  | (OutOfFuel, stw) =>
      execute_rest pd_DataFrame recast_df (Some c) true count fuel r p st =
        (OutOfFuel, stw)
  end.
Proof.
  unfold execute_rest. mstep.
  destruct (while_loop fuel (Some c) count r None p st) as [[pw|e|] stw];
    try reflexivity.
  pose proof (num_res_run stw) as N.
  destruct (_results (self stw)) as [res|] eqn:R.
  - destruct N as (a & stn & EQ & SN).
    exists stn. split; [exact SN|].
    split.
    { unfold num_res, results, len, new_int in EQ. revert EQ. mstep.
      rewrite R. destruct (is_small_int (Z.of_nat (List.length res)));
        intros EQ; injection EQ as _ <-; simpl; lia. }
    rewrite EQ. cbn [ob_ival].
    destruct (tqdm_update pw (Z.of_nat (List.length res) - tqdm_n pw))
      as [e|pf]; [reflexivity|].
    destruct (tqdm_close pf); [reflexivity|].
    destruct SN as [SN TN]. rewrite <- SN in R. rewrite R. reflexivity.
  - rewrite N. reflexivity.
Qed.


(** ** The allocator *)

Lemma new_int_next (z : Z) (st : St) :
  fst (new_int z st) =
    Ok {| ob_addr := if is_small_int z then SmallInt z
                     else HeapAddr (next_addr st);
          ob_ival := z |}
  /\ (next_addr st <= next_addr (snd (new_int z st)))%nat
  /\ (is_small_int z = false ->
      (next_addr st < next_addr (snd (new_int z st)))%nat).
Proof.
  unfold new_int. destruct (is_small_int z); simpl.
  - split; [reflexivity|]. split; [lia | discriminate].
  - split; [reflexivity|]. split; [lia | intros _; lia].
Qed.

Lemma num_res_next (st : St) :
  (next_addr st <= next_addr (snd (num_res st)))%nat.
Proof.
  unfold num_res, results, len. mstep.
  destruct (_results (self st)) as [r|]; [|simpl; lia].
  destruct (new_int_next (Z.of_nat (List.length r)) st) as (_ & L & _).
  destruct (new_int (Z.of_nat (List.length r)) st) as [[a|e|] st']; exact L.
Qed.

Lemma upper_limit_next (st : St) :
  (next_addr st <= next_addr (snd (_upper_limit_reached st)))%nat.
Proof.
  unfold _upper_limit_reached. mstep.
  destruct (_cursor_supported (self st)) as [[|]|]; simpl; try lia.
  pose proof (num_res_next st) as L.
  destruct (num_res st) as [[a|e|] st']; exact L.
Qed.

Lemma loop_test_next (st : St) :
  (next_addr st <= next_addr (snd (loop_test st)))%nat.
Proof.
  unfold loop_test. mstep.
  pose proof (num_res_next st) as L.
  destruct (num_res st) as [[n|e|] st1]; simpl in L; try exact L.
  unfold tot_num_res. mstep.
  destruct (_tot_num_res (self st1)) as [t|]; [|exact L].
  destruct (ob_ival n <? ob_ival t); [|exact L].
  pose proof (upper_limit_next st1) as L1.
  destruct (_upper_limit_reached st1) as [[b|e|] st2]; simpl in *; lia.
Qed.

Lemma while_loop_next (c : ElsClient Entry) (count : Z) (fuel : nat) :
  forall (r : ApiResponse Entry) (nu : option string) (p : tqdm) (st : St),
    (next_addr st <=
     next_addr (snd (while_loop fuel (Some c) count r nu p st)))%nat.
Proof.
  induction fuel as [|fuel IH]; intros r nu p st; [simpl; lia|].
  rewrite while_loop_S.
  pose proof (loop_test_next st) as L.
  destruct (loop_test st) as [[[|]|e|] st1]; simpl in L; try exact L.
  pose proof (loop_body_run c count r nu p st1) as B.
  destruct (loop_body (Some c) count r nu p st1) as [ob stb]. simpl in B.
  assert (NB : next_addr stb = next_addr st1) by (inversion B; reflexivity).
  destruct ob as [[[r' nu'] p']|e|]; simpl; try lia.
  specialize (IH r' nu' p' stb). lia.
Qed.

(** ** The rest of [execute], as a whole *)

(** Once the first page is stored: the log grows by the requests of the
    loop, [_results] by their pages, the table is rebuilt when the call
    returns and only then, and a page that fails ends the call with its
    exception and is the last request. *)
Lemma execute_rest_run (c : ElsClient Entry) (get_all : bool) (count : Z)
    (fuel : nat) (r : ApiResponse Entry) (p : tqdm) (st : St)
    (page : list Entry) :
  _results (self st) = Some page ->
  exists evs,
    trace (snd (execute_rest pd_DataFrame recast_df (Some c) get_all count fuel
                  r p st)) = trace st ++ evs
    /\ _results (self (snd (execute_rest pd_DataFrame recast_df (Some c)
                              get_all count fuel r p st))) =
         Some (page ++ collected evs)
    /\ _tot_num_res (self (snd (execute_rest pd_DataFrame recast_df (Some c)
                                  get_all count fuel r p st))) =
         _tot_num_res (self st)
    /\ _cursor_supported (self (snd (execute_rest pd_DataFrame recast_df
                                       (Some c) get_all count fuel r p st))) =
         _cursor_supported (self st)
    /\ (next_addr st <=
        next_addr (snd (execute_rest pd_DataFrame recast_df (Some c) get_all
                          count fuel r p st)))%nat
    /\ (fst (execute_rest pd_DataFrame recast_df (Some c) get_all count fuel r
               p st) = Ok tt ->
        results_df (self (snd (execute_rest pd_DataFrame recast_df (Some c)
                                 get_all count fuel r p st))) =
          Some (recast_df (pd_DataFrame (Some (page ++ collected evs)))))
    /\ (fst (execute_rest pd_DataFrame recast_df (Some c) get_all count fuel r
               p st) <> Ok tt ->
        results_df (self (snd (execute_rest pd_DataFrame recast_df (Some c)
                                 get_all count fuel r p st))) =
          results_df (self st))
    /\ (get_all = false -> evs = [])
    /\ (forall k ev e,
          nth_error evs k = Some ev ->
          page_failure (snd ev) = Some e ->
          fst (execute_rest pd_DataFrame recast_df (Some c) get_all count fuel
                 r p st) = Raise e
          /\ List.length evs = S k).
Proof.
  intros R. destruct get_all.
  - pose proof (execute_rest_loop c count fuel r p st) as H.
    destruct (while_loop_run c count fuel r None p st)
      as (evs & T & RS & SB & F).
    pose proof (while_loop_next c count fuel r None p st) as NW.
    exists evs.
    destruct (while_loop fuel (Some c) count r None p st) as [o stw].
    cbn [fst snd] in T, RS, SB, F, NW. rewrite R in RS. cbn [option_map] in RS.
    destruct SB as (_ & _ & CS & _ & DF & TW).
    assert (NF : forall k ev e,
               nth_error evs k = Some ev ->
               page_failure (snd ev) = Some e -> forall pw, o <> Ok pw).
    { intros k ev e X P pw. destruct (F k ev e X P) as [-> _]. discriminate. }
    destruct o as [pw|e|].
    + rewrite RS in H. destruct H as (stn & [SN TN] & NN & E). rewrite E.
      assert (bad : forall e : exn,
                 trace (snd (@Raise unit e, stn)) = trace st ++ evs
                 /\ _results (self (snd (@Raise unit e, stn))) =
                      Some (page ++ collected evs)
                 /\ _tot_num_res (self (snd (@Raise unit e, stn))) =
                      _tot_num_res (self st)
                 /\ _cursor_supported (self (snd (@Raise unit e, stn))) =
                      _cursor_supported (self st)
                 /\ (next_addr st <= next_addr (snd (@Raise unit e, stn)))%nat
                 /\ (fst (@Raise unit e, stn) = Ok tt ->
                     results_df (self (snd (@Raise unit e, stn))) =
                       Some (recast_df
                               (pd_DataFrame (Some (page ++ collected evs)))))
                 /\ (fst (@Raise unit e, stn) <> Ok tt ->
                     results_df (self (snd (@Raise unit e, stn))) =
                       results_df (self st))
                 /\ (true = false -> evs = [])
                 /\ (forall k ev e',
                       nth_error evs k = Some ev ->
                       page_failure (snd ev) = Some e' ->
                       fst (@Raise unit e, stn) = Raise e'
                       /\ List.length evs = S k)).
      { intros e. cbn [fst snd]. rewrite SN, TN.
        split; [exact T|]. split; [exact RS|]. split; [exact TW|].
        split; [exact CS|]. split; [lia|]. split; [discriminate|].
        split; [intros _; exact DF|]. split; [discriminate|].
        intros k ev e' X P. now elim (NF k ev e' X P pw). }
      destruct (tqdm_update pw (Z.of_nat (List.length (page ++ collected evs))
                                - tqdm_n pw)) as [e|pf]; [apply bad|].
      destruct (tqdm_close pf) as [e|]; [apply bad|].
      cbn [fst snd self trace next_addr _results _tot_num_res _cursor_supported
           results_df with_results_df].
      rewrite SN, TN.
      split; [exact T|]. split; [exact RS|]. split; [exact TW|].
      split; [exact CS|]. split; [lia|]. split; [reflexivity|].
      split; [intros X; now elim X|]. split; [discriminate|].
      intros k ev e' X P. now elim (NF k ev e' X P pw).
    + rewrite H. cbn [fst snd].
      split; [exact T|]. split; [exact RS|]. split; [exact TW|].
      split; [exact CS|]. split; [exact NW|]. split; [discriminate|].
      split; [intros _; exact DF|]. split; [discriminate|].
      intros k ev e' X P. destruct (F k ev e' X P) as [Q L].
      injection Q as <-. now split.
    + rewrite H. cbn [fst snd].
      split; [exact T|]. split; [exact RS|]. split; [exact TW|].
      split; [exact CS|]. split; [exact NW|]. split; [discriminate|].
      split; [intros _; exact DF|]. split; [discriminate|].
      intros k ev e' X P. destruct (F k ev e' X P) as [Q L]. discriminate.
  - exists []. rewrite execute_rest_single, R.
    unfold collected. cbn [flat_map]. rewrite !app_nil_r.
    destruct (tqdm_close p) as [e|];
      cbn [fst snd self trace next_addr _results _tot_num_res _cursor_supported
           results_df with_results_df].
    + split; [reflexivity|]. split; [exact R|]. split; [reflexivity|].
      split; [reflexivity|]. split; [lia|]. split; [discriminate|].
      split; [reflexivity|]. split; [reflexivity|].
      intros [|k] ev e' X; discriminate.
    + split; [reflexivity|]. split; [exact R|]. split; [reflexivity|].
      split; [reflexivity|]. split; [lia|]. split; [reflexivity|].
      split; [intros X; now elim X|]. split; [reflexivity|].
      intros [|k] ev e' X; discriminate.
Qed.

(** The whole run: the first request goes to [first_url]; its reply either
    ends the call ([first_failure]) before [_results] is assigned, or starts
    the results, which then hold the entries of every page received; a page
    that fails ends the call with its exception and is the last request. *)
Lemma execute_run (c : ElsClient Entry) (get_all use_cursor : bool)
    (view : option string) (count : Z) (fuel : nat) (st : St) (u : string) :
  _uri (self st) = Some u ->
  exists evs,
    trace (snd (execute pd_DataFrame recast_df (Some c) get_all use_cursor
                  view count fuel st)) =
      trace st ++ (first_url u use_cursor view count,
                   c (map fst (trace st)) (first_url u use_cursor view count)) :: evs
    /\ match first_failure (c (map fst (trace st))
                              (first_url u use_cursor view count)) with
       | Some e =>
           fst (execute pd_DataFrame recast_df (Some c) get_all use_cursor
                  view count fuel st) = Raise e
           /\ evs = []
           /\ _results (self (snd (execute pd_DataFrame recast_df (Some c) get_all
                                     use_cursor view count fuel st))) =
                _results (self st)
       | None =>
           _results (self (snd (execute pd_DataFrame recast_df (Some c) get_all
                                  use_cursor view count fuel st))) =
             Some (collected
                     ((first_url u use_cursor view count,
                       c (map fst (trace st)) (first_url u use_cursor view count))
                        :: evs))
           /\ forall k ev e,
                nth_error evs k = Some ev ->
                page_failure (snd ev) = Some e ->
                fst (execute pd_DataFrame recast_df (Some c) get_all use_cursor
                       view count fuel st) = Raise e
                /\ List.length evs = S k
       end.
Proof.
  intros U.
  destruct (execute_cases c use_cursor view count st u U)
    as [(e & FF & H) | (r & t & p0 & page & C & LT & BAR & LE & FF)].
  - exists []. rewrite FF. destruct (H get_all fuel) as (O & T & R & _).
    split; [exact T|]. split; [exact O|]. split; [reflexivity | exact R].
  - rewrite FF.
    rewrite (execute_start c get_all use_cursor view count fuel st u r t p0
               page U C LT BAR LE).
    match goal with |- context [execute_rest _ _ _ _ _ _ _ _ ?s] =>
      set (st3 := s) end.
    destruct (execute_rest_run c get_all count fuel r p0 st3 page eq_refl)
      as (evs & T & RS & _ & _ & _ & _ & _ & _ & F).
    exists evs. rewrite C.
    split.
    { rewrite T. unfold st3. cbn [trace]. now rewrite <- app_assoc. }
    split; [|exact F].
    rewrite RS, collected_cons, (event_entries_page _ r page LE). reflexivity.
Qed.

(** ** The request address (C5) *)



(** ** Failures inside the loop (C7) *)

Lemma nth_error_last_split {A} (l : list A) (k : nat) (x : A) :
  nth_error l k = Some x -> List.length l = S k -> l = firstn k l ++ [x].
Proof.
  revert k. induction l as [|a l IH]; intros [|k] H L; simpl in *;
    try discriminate.
  - injection H as ->. destruct l; [reflexivity | discriminate].
  - f_equal. apply IH; [assumption | lia].
Qed.

Lemma first_failure_none (reply : exn + ApiResponse Entry) :
  first_failure reply = None -> page_failure reply = None.
Proof.
  unfold first_failure. destruct reply as [e|r]; [discriminate|].
  destruct (lookup_total r) as [e|t]; [discriminate|].
  destruct (tqdm_tqdm t); [discriminate | trivial].
Qed.

(** C7: when a page fetch of the loop fails (on request number [k+2] of the
    call the client raises [e], or its reply has no entries and the
    subscript raises [e]), [execute] ends with [e], that request is the last
    one sent (nothing is retried), every request before it had brought a
    page, and [_results] holds the entries of exactly those pages, in
    order. *)
Theorem fetch_failure_keeps_partial_results :
  forall (c : ElsClient Entry) (use_cursor : bool) (view : option string)
         (count : Z) (fuel : nat) (st : St) (u : string)
         (evs : list (event Entry)) (k : nat) (ev : event Entry) (e : exn),
    _uri (self st) = Some u ->
    trace (snd (execute pd_DataFrame recast_df (Some c) true use_cursor view
                  count fuel st)) = trace st ++ evs ->
    nth_error evs (S k) = Some ev ->
    page_failure (snd ev) = Some e ->
    fst (execute pd_DataFrame recast_df (Some c) true use_cursor view count
           fuel st) = Raise e
    /\ List.length evs = S (S k)
    /\ (forall j ev', (j <= k)%nat -> nth_error evs j = Some ev' ->
                      page_failure (snd ev') = None)
    /\ _results (self (snd (execute pd_DataFrame recast_df (Some c) true
                              use_cursor view count fuel st))) =
         Some (collected (firstn (S k) evs)).
Proof.
  intros c use_cursor view count fuel st u evs k ev e U T N PF.
  destruct (execute_run c true use_cursor view count fuel st u U)
    as (evs0 & T0 & H).
  rewrite T0 in T. apply app_inv_head in T. subst evs.
  simpl in N.
  destruct (first_failure (c (map fst (trace st))
                             (first_url u use_cursor view count))) eqn:FF.
  { destruct H as (_ & -> & _). destruct k; discriminate. }
  destruct H as (R & F).
  destruct (F k ev e N PF) as [O L].
  split; [exact O|]. split; [simpl; f_equal; exact L|].
  split.
  - intros [|j] ev' J NJ; simpl in NJ.
    + injection NJ as <-. simpl. now apply first_failure_none.
    + destruct (page_failure (snd ev')) as [e'|] eqn:P; [|reflexivity].
      destruct (F j ev' e' NJ P) as [_ L']. lia.
  - rewrite R. f_equal.
    rewrite (nth_error_last_split evs0 k ev N L) at 1.
    rewrite !collected_cons. simpl firstn. rewrite collected_cons.
    rewrite collected_app. f_equal.
    rewrite collected_cons, (event_entries_failure ev e PF).
    unfold collected. simpl. apply app_nil_r.
Qed.

(** ** A single page (C8) *)

(** [hasAllResults] compares the address of the object [len] has just made
    with the address of the stored total. *)
Lemma hasAllResults_run (st : St) :
  fst (hasAllResults st) =
    match _results (self st) with
    | None => Raise (AttributeError "_results")
    | Some r =>
        match _tot_num_res (self st) with
        | None => Raise (AttributeError "_tot_num_res")
        | Some t =>
            Ok (address_eqb
                  (if is_small_int (Z.of_nat (List.length r))
                   then SmallInt (Z.of_nat (List.length r))
                   else HeapAddr (next_addr st))
                  (ob_addr t))
        end
    end.
Proof.
  unfold hasAllResults, num_res, results, tot_num_res, len, new_int, py_is.
  mstep.
  destruct (_results (self st)) as [r|]; [|reflexivity].
  destruct (is_small_int (Z.of_nat (List.length r))); cbn [self];
    destruct (_tot_num_res (self st)); reflexivity.
Qed.


(** ** A page without a "next" link (C3) *)






(** ** Replies that differ in the total of later pages *)

Lemma for_link_any_state (links : list Link) (nu : option string)
    (st st' : St) :
  fst (for_link links nu st') = fst (for_link links nu st).
Proof.
  revert nu. induction links as [|e rest IH]; intros nu; [reflexivity|].
  cbn [for_link]. mstep.
  destruct (at_ref e) as [ref|]; [|reflexivity].
  destruct (String.eqb ref "next"); [|apply IH].
  destruct (at_href e) as [h|]; [apply IH | reflexivity].
Qed.

Lemma same_page_refl (r : ApiResponse Entry) : same_page r r.
Proof. split; reflexivity. Qed.

Lemma same_page_without_total (r : ApiResponse Entry) :
  same_page r (without_total r).
Proof.
  unfold same_page, lookup_entries, without_total. cbn [search_results].
  destruct (search_results r) as [sr|]; split; reflexivity.
Qed.

(** One turn of the body against [c] and against [c] with the totals of
    its later replies left out: same outcome, same object, same requests. *)
Lemma loop_body_same (n : nat) (c : ElsClient Entry) (count : Z)
    (r r' : ApiResponse Entry) (nu : option string) (p : tqdm) (st st' : St) :
  same_page r r' ->
  same_requests st st' ->
  (n < List.length (trace st))%nat ->
  same_requests (snd (loop_body (Some c) count r nu p st))
    (snd (loop_body (Some (without_later_totals n c)) count r' nu p st'))
  /\ (n < List.length (trace (snd (loop_body (Some c) count r nu p st))))%nat
  /\ match fst (loop_body (Some c) count r nu p st),
           fst (loop_body (Some (without_later_totals n c)) count r' nu p st')
     with
     | Ok (r2, nu2, p2), Ok (r2', nu2', p2') =>
         same_page r2 r2' /\ nu2' = nu2 /\ p2' = p2
     | Raise e, Raise e' => e' = e
     | _, _ => False
     end.
Proof.
  intros [_ LK] [S T] N. unfold loop_body. mstep.
  destruct (search_results r) as [sr|], (search_results r') as [sr'|];
    cbn [option_map] in LK; try discriminate.
  2:{ split; [split; assumption|]. split; [exact N | reflexivity]. }
  injection LK as LK. rewrite LK.
  destruct (link sr) as [links|].
  2:{ split; [split; assumption|]. split; [exact N | reflexivity]. }
  destruct (for_link_run links nu st) as (o & E & NF).
  destruct (for_link_run links nu st') as (o' & E' & _).
  pose proof (for_link_any_state links nu st st') as Q.
  rewrite E, E' in Q. cbn [fst] in Q. subst o'. rewrite E, E'.
  destruct o as [[url|]|e|]; mstep;
    try (split; [split; assumption|]; split; [exact N | reflexivity]).
  2:{ now elim NF. }
  rewrite T. unfold without_later_totals. rewrite length_map.
  match goal with |- context [(?l <=? n)%nat] =>
    replace (l <=? n)%nat with false by (symmetry; apply Nat.leb_gt; exact N)
  end.
  assert (TR : forall a b : exn + ApiResponse Entry,
             map fst (trace st' ++ [(url, a)]) =
             map fst (trace st ++ [(url, b)])).
  { intros a b. rewrite !map_app. cbn [map fst]. f_equal. exact T. }
  assert (NS : forall b : exn + ApiResponse Entry,
             (n < List.length (trace st ++ [(url, b)]))%nat).
  { intros b. rewrite length_app. lia. }
  destruct (c (map fst (trace st)) url) as [e|r2]; mstep.
  { split; [split; [cbn [self]; congruence | apply TR]|]. split; [apply NS | reflexivity]. }
  rewrite S.
  destruct (_results (self st)) as [cur|]; mstep.
  2:{ split; [split; [cbn [self]; congruence | apply TR]|].
      split; [apply NS | reflexivity]. }
  unfold without_total. cbn [search_results].
  destruct (search_results r2) as [sr2|] eqn:SR2; mstep.
  2:{ split; [split; [cbn [self]; congruence | apply TR]|].
      split; [apply NS | reflexivity]. }
  cbn [entry].
  destruct (entry sr2) as [page|] eqn:EN2; mstep.
  2:{ split; [split; [cbn [self]; congruence | apply TR]|].
      split; [apply NS | reflexivity]. }
  destruct (tqdm_update p count) as [e|p']; mstep.
  - split; [split; [cbn [self]; congruence | apply TR]|].
    split; [apply NS | reflexivity].
  - split; [split; [cbn [self]; congruence | apply TR]|].
    split; [apply NS|].
    split; [|split; reflexivity].
    unfold same_page, lookup_entries. cbn [search_results entry link option_map].
    rewrite SR2, EN2. split; reflexivity.
Qed.

Lemma while_loop_same (n : nat) (c : ElsClient Entry) (count : Z)
    (fuel : nat) :
  forall (r r' : ApiResponse Entry) (nu : option string) (p : tqdm)
         (st st' : St),
    same_page r r' ->
    same_requests st st' ->
    (n < List.length (trace st))%nat ->
    same_requests (snd (while_loop fuel (Some c) count r nu p st))
      (snd (while_loop fuel (Some (without_later_totals n c)) count r' nu p
              st'))
    /\ fst (while_loop fuel (Some (without_later_totals n c)) count r' nu p
              st') =
       fst (while_loop fuel (Some c) count r nu p st).
Proof.
  induction fuel as [|fuel IH]; intros r r' nu p st st' SP [S T] N.
  - split; [split; assumption | reflexivity].
  - rewrite !while_loop_S.
    destruct (loop_test_run st) as (st1 & [S1 T1] & E1).
    destruct (loop_test_run st') as (st1' & [S1' T1'] & E1').
    rewrite S in E1'. rewrite E1, E1'.
    assert (SR1 : same_requests st1 st1').
    { split; congruence. }
    assert (N1 : (n < List.length (trace st1))%nat) by now rewrite T1.
    set (o := match _results (self st) with
              | Some r0 =>
                  match _tot_num_res (self st) with
                  | Some t =>
                      if Z.of_nat (List.length r0) <? ob_ival t
                      then match _cursor_supported (self st) with
                           | Some true => Ok true
                           | Some false =>
                               Ok (negb (5000 <=? Z.of_nat (List.length r0)))
                           | None => Raise (AttributeError "_cursor_supported")
                           end
                      else Ok false
                  | None => Raise (AttributeError "_tot_num_res")
                  end
              | None => Raise (AttributeError "_results")
              end).
    destruct o as [[|]|e|]; try (split; [exact SR1 | reflexivity]).
    destruct (loop_body_same n c count r r' nu p st1 st1' SP SR1 N1)
      as (SB & NB & OB).
    destruct (loop_body (Some c) count r nu p st1) as [[[[r2 nu2] p2]|e|] stb];
      destruct (loop_body (Some (without_later_totals n c)) count r' nu p st1')
        as [[[[r2' nu2'] p2']|e'|] stb'];
      cbn [fst snd] in SB, NB, OB; try contradiction.
    + destruct OB as (SP2 & -> & ->). apply IH; assumption.
    + subst e'. split; [exact SB | reflexivity].
Qed.

Lemma execute_rest_same (n : nat) (c : ElsClient Entry) (get_all : bool)
    (count : Z) (fuel : nat) (r : ApiResponse Entry) (p : tqdm) (st : St) :
  (n < List.length (trace st))%nat ->
  fst (execute_rest pd_DataFrame recast_df (Some (without_later_totals n c))
         get_all count fuel r p st) =
  fst (execute_rest pd_DataFrame recast_df (Some c) get_all count fuel r p st)
  /\ same_requests
       (snd (execute_rest pd_DataFrame recast_df (Some c) get_all count fuel r
               p st))
       (snd (execute_rest pd_DataFrame recast_df
               (Some (without_later_totals n c)) get_all count fuel r p st)).
Proof.
  intros N. destruct get_all.
  2:{ rewrite !execute_rest_single. split; [reflexivity | split; reflexivity]. }
  pose proof (execute_rest_loop c count fuel r p st) as H.
  pose proof (execute_rest_loop (without_later_totals n c) count fuel r p st)
    as H'.
  destruct (while_loop_same n c count fuel r r None p st st
              (same_page_refl r) (conj eq_refl eq_refl) N) as ([S T] & O).
  destruct (while_loop fuel (Some c) count r None p st) as [o stw].
  destruct (while_loop fuel (Some (without_later_totals n c)) count r None p st)
    as [o' stw'].
  cbn [fst snd] in S, T, O. subst o'.
  destruct o as [pw|e|].
  - rewrite S in H'.
    destruct (_results (self stw)) as [res|].
    + destruct H as (stn & [SN TN] & _ & E).
      destruct H' as (stn' & [SN' TN'] & _ & E').
      rewrite E, E'.
      destruct (tqdm_update pw (Z.of_nat (List.length res) - tqdm_n pw))
        as [e|pf].
      { split; [reflexivity | split; cbn [snd]; congruence]. }
      destruct (tqdm_close pf) as [e|].
      { split; [reflexivity | split; cbn [snd]; congruence]. }
      split; [reflexivity|]. split; cbn [snd self trace]; congruence.
    + rewrite H, H'. split; [reflexivity | split; assumption].
  - rewrite H, H'. split; [reflexivity | split; assumption].
  - rewrite H, H'. split; [reflexivity | split; assumption].
Qed.

(** A call that ends before [_results] is assigned depends on the client
    through its first reply only. *)
Lemma execute_early (c c2 : ElsClient Entry) (get_all use_cursor : bool)
    (view : option string) (count : Z) (fuel : nat) (st : St) (u : string)
    (e : exn) :
  _uri (self st) = Some u ->
  c2 (map fst (trace st)) (first_url u use_cursor view count) =
    c (map fst (trace st)) (first_url u use_cursor view count) ->
  first_failure (c (map fst (trace st)) (first_url u use_cursor view count)) =
    Some e ->
  execute pd_DataFrame recast_df (Some c2) get_all use_cursor view count fuel
    st =
  execute pd_DataFrame recast_df (Some c) get_all use_cursor view count fuel
    st.
Proof.
  intros U C2 FF. unfold execute. mstep. rewrite U. mstep. rewrite C2.
  destruct (c (map fst (trace st)) (first_url u use_cursor view count))
    as [e'|r]; mstep; [reflexivity|].
  unfold first_failure, page_failure, lookup_total, lookup_entries in FF.
  destruct (search_results r) as [sr|]; mstep; [|reflexivity].
  destruct (opensearch_totalResults sr) as [t|]; mstep; [|reflexivity].
  unfold new_int. destruct (is_small_int t); mstep;
    cbn [_tot_num_res with_tot_num_res ob_ival];
    destruct (tqdm_tqdm t) as [e'|p0]; mstep; try reflexivity;
    (destruct (entry sr) as [page|]; [discriminate | reflexivity]).
Qed.

(** The totals of the replies after the first one are not read: leaving them
    out changes neither the outcome of [execute], nor the object it leaves,
    nor the requests it sends. *)
Lemma execute_same (c : ElsClient Entry) (get_all use_cursor : bool)
    (view : option string) (count : Z) (fuel : nat) (st : St) :
  fst (execute pd_DataFrame recast_df
         (Some (without_later_totals (List.length (trace st)) c)) get_all
         use_cursor view count fuel st) =
  fst (execute pd_DataFrame recast_df (Some c) get_all use_cursor view count
         fuel st)
  /\ same_requests
       (snd (execute pd_DataFrame recast_df (Some c) get_all use_cursor view
               count fuel st))
       (snd (execute pd_DataFrame recast_df
               (Some (without_later_totals (List.length (trace st)) c)) get_all
               use_cursor view count fuel st)).
Proof.
  destruct (_uri (self st)) as [u|] eqn:U.
  2:{ unfold execute. mstep. rewrite U.
      split; [reflexivity | split; reflexivity]. }
  set (c' := without_later_totals (List.length (trace st)) c).
  assert (C' : c' (map fst (trace st)) (first_url u use_cursor view count) =
               c (map fst (trace st)) (first_url u use_cursor view count)).
  { unfold c', without_later_totals. rewrite length_map, Nat.leb_refl.
    destruct (c (map fst (trace st)) (first_url u use_cursor view count));
      reflexivity. }
  destruct (execute_cases c use_cursor view count st u U)
    as [(e & FF & H) | (r & t & p0 & page & C & LT & BAR & LE & FF)].
  - rewrite (execute_early c c' get_all use_cursor view count fuel st u e
               U C' FF).
    split; [reflexivity | split; reflexivity].
  - rewrite (execute_start c get_all use_cursor view count fuel st u r t p0
               page U C LT BAR LE).
    rewrite C in C'.
    rewrite (execute_start c' get_all use_cursor view count fuel st u r t p0
               page U C' LT BAR LE).
    apply execute_rest_same. cbn [trace]. rewrite length_app. simpl. lia.
Qed.

(** ** Responses without the expected fields (C10) *)

(** C10 (amended): [execute] ends with a [KeyError] when the first response
    has no total, and when any response it receives has no entries (for the
    first response: once its total has been read and the progress bar
    created with it) or no ["search-results"] object at all; the request
    that brought such a response is the last one.  The total of a later page
    is never read: leaving the totals out of every reply after the first
    changes neither the outcome of the call, nor the object it leaves, nor
    the requests it sends. *)
Theorem missing_field_raises_key_error :
  forall (c : ElsClient Entry) (get_all use_cursor : bool)
         (view : option string) (count : Z) (fuel : nat) (st : St) (u : string)
         (evs : list (event Entry)),
    _uri (self st) = Some u ->
    trace (snd (execute pd_DataFrame recast_df (Some c) get_all use_cursor view
                  count fuel st)) = trace st ++ evs ->
    (forall url r sr,
        nth_error evs 0 = Some (url, inr r) ->
        search_results r = Some sr ->
        opensearch_totalResults sr = None ->
        fst (execute pd_DataFrame recast_df (Some c) get_all use_cursor view
               count fuel st) = Raise (KeyError "opensearch:totalResults")
        /\ List.length evs = 1%nat)
    /\ (forall k url r sr,
           nth_error evs k = Some (url, inr r) ->
           search_results r = Some sr ->
           entry sr = None ->
           (k = 0%nat ->
            exists t p, opensearch_totalResults sr = Some t
                        /\ tqdm_tqdm t = inr p) ->
           fst (execute pd_DataFrame recast_df (Some c) get_all use_cursor view
                  count fuel st) = Raise (KeyError "entry")
           /\ List.length evs = S k)
    /\ (forall k url r,
           nth_error evs k = Some (url, inr r) ->
           search_results r = None ->
           fst (execute pd_DataFrame recast_df (Some c) get_all use_cursor view
                  count fuel st) = Raise (KeyError "search-results")
           /\ List.length evs = S k)
    /\ (fst (execute pd_DataFrame recast_df
               (Some (without_later_totals (List.length (trace st)) c))
               get_all use_cursor view count fuel st) =
        fst (execute pd_DataFrame recast_df (Some c) get_all use_cursor view
               count fuel st)
        /\ self (snd (execute pd_DataFrame recast_df
                        (Some (without_later_totals (List.length (trace st)) c))
                        get_all use_cursor view count fuel st)) =
           self (snd (execute pd_DataFrame recast_df (Some c) get_all
                        use_cursor view count fuel st))
        /\ map fst
             (trace (snd (execute pd_DataFrame recast_df
                            (Some (without_later_totals
                                     (List.length (trace st)) c))
                            get_all use_cursor view count fuel st))) =
           map fst
             (trace (snd (execute pd_DataFrame recast_df (Some c) get_all
                            use_cursor view count fuel st)))).
Proof.
  intros c get_all use_cursor view count fuel st u evs U T.
  destruct (execute_run c get_all use_cursor view count fuel st u U)
    as (evs0 & T0 & H).
  rewrite T0 in T. apply app_inv_head in T. subst evs.
  split; [|split; [|split]].
  - intros url r sr N SR TOT. simpl in N. injection N as _ N.
    rewrite N in H. unfold first_failure, lookup_total in H.
    rewrite SR, TOT in H. destruct H as (O & -> & _). now split.
  - intros k url r sr N SR EN K0.
    assert (P : page_failure (@inr exn _ r) = Some (KeyError "entry")).
    { unfold page_failure, lookup_entries. now rewrite SR, EN. }
    destruct k as [|k]; simpl in N.
    + injection N as _ N. rewrite N in H.
      destruct (K0 eq_refl) as (t & p & TOT & BAR).
      unfold first_failure, lookup_total in H. rewrite SR, TOT, BAR in H.
      rewrite P in H. destruct H as (O & -> & _). now split.
    + destruct (first_failure (c (map fst (trace st))
                                 (first_url u use_cursor view count))).
      { destruct H as (_ & -> & _). destruct k; discriminate. }
      destruct H as (_ & F).
      destruct (F k (url, inr r) _ N P) as [O L].
      split; [exact O | simpl; f_equal; exact L].
  - intros k url r N SR.
    assert (P : page_failure (@inr exn _ r) = Some (KeyError "search-results")).
    { unfold page_failure, lookup_entries. now rewrite SR. }
    destruct k as [|k]; simpl in N.
    + injection N as _ N. rewrite N in H.
      unfold first_failure, lookup_total in H. rewrite SR in H.
      destruct H as (O & -> & _). now split.
    + destruct (first_failure (c (map fst (trace st))
                                 (first_url u use_cursor view count))).
      { destruct H as (_ & -> & _). destruct k; discriminate. }
      destruct H as (_ & F).
      destruct (F k (url, inr r) _ N P) as [O L].
      split; [exact O | simpl; f_equal; exact L].
  - destruct (execute_same c get_all use_cursor view count fuel st)
      as (O & S & M).
    split; [exact O|]. split; [exact S | exact M].
Qed.


(** ** [execute] and its loop *)

(** A call that returned had a first reply with a total the bar accepted,
    and entries. *)
Lemma execute_ok_inv (c : ElsClient Entry) (get_all use_cursor : bool)
    (view : option string) (count : Z) (fuel : nat) (st : St) :
  fst (execute pd_DataFrame recast_df (Some c) get_all use_cursor view count
         fuel st) = Ok tt ->
  exists u r t p0 page,
    _uri (self st) = Some u
    /\ c (map fst (trace st)) (first_url u use_cursor view count) = inr r
    /\ lookup_total r = inr t
    /\ tqdm_tqdm t = inr p0
    /\ lookup_entries r = inr page.
Proof.
  intros O. destruct (_uri (self st)) as [u|] eqn:U.
  2:{ unfold execute in O. revert O. mstep. rewrite U. discriminate. }
  destruct (execute_cases c use_cursor view count st u U)
    as [(e & _ & H) | (r & t & p0 & page & C & LT & BAR & LE & _)].
  - destruct (H get_all fuel) as (X & _). rewrite X in O. discriminate.
  - exists u, r, t, p0, page. repeat split; assumption.
Qed.

(** With [get_all=True] the call leaves what its loop leaves, and the table
    when it returns; it returns only when the loop does, and it ends as the
    loop does when the loop does not return. *)
Lemma execute_rest_after_loop (c : ElsClient Entry) (count : Z) (fuel : nat)
    (r : ApiResponse Entry) (p : tqdm) (st : St) :
  _results (self (snd (execute_rest pd_DataFrame recast_df (Some c) true count
                         fuel r p st))) =
    _results (self (snd (while_loop fuel (Some c) count r None p st)))
  /\ _tot_num_res (self (snd (execute_rest pd_DataFrame recast_df (Some c) true
                                count fuel r p st))) =
       _tot_num_res (self (snd (while_loop fuel (Some c) count r None p st)))
  /\ _cursor_supported (self (snd (execute_rest pd_DataFrame recast_df (Some c)
                                     true count fuel r p st))) =
       _cursor_supported (self (snd (while_loop fuel (Some c) count r None p
                                       st)))
  /\ trace (snd (execute_rest pd_DataFrame recast_df (Some c) true count fuel r
                   p st)) =
       trace (snd (while_loop fuel (Some c) count r None p st))
  /\ (fst (execute_rest pd_DataFrame recast_df (Some c) true count fuel r p
             st) = Ok tt ->
      exists pw, fst (while_loop fuel (Some c) count r None p st) = Ok pw)
  /\ (forall e, fst (while_loop fuel (Some c) count r None p st) = Raise e ->
                fst (execute_rest pd_DataFrame recast_df (Some c) true count
                       fuel r p st) = Raise e)
  /\ (fst (execute_rest pd_DataFrame recast_df (Some c) true count fuel r p
             st) = OutOfFuel <->
      fst (while_loop fuel (Some c) count r None p st) = OutOfFuel).
Proof.
  pose proof (execute_rest_loop c count fuel r p st) as H.
  destruct (while_loop fuel (Some c) count r None p st) as [[pw|e|] stw];
    cbn [fst snd] in *.
  - destruct (_results (self stw)) as [res|] eqn:R.
    + destruct H as (stn & [SN TN] & _ & E). rewrite E.
      destruct (tqdm_update pw (Z.of_nat (List.length res) - tqdm_n pw))
        as [e|pf].
      { cbn [fst snd]. rewrite SN, TN.
        repeat (split; [first [assumption | reflexivity]|]).
        split; [discriminate|]. split; [discriminate|].
        split; discriminate. }
      destruct (tqdm_close pf) as [e|].
      { cbn [fst snd]. rewrite SN, TN.
        repeat (split; [first [assumption | reflexivity]|]).
        split; [discriminate|]. split; [discriminate|].
        split; discriminate. }
      cbn [fst snd self trace _results _tot_num_res _cursor_supported
           with_results_df]. rewrite SN, TN.
      repeat (split; [first [assumption | reflexivity]|]).
      split; [intros _; now exists pw|]. split; [discriminate|].
      split; discriminate.
    + rewrite H. cbn [fst snd]. rewrite R.
      repeat (split; [reflexivity|]).
      split; [discriminate|]. split; [discriminate|].
      split; discriminate.
  - rewrite H. cbn [fst snd].
    repeat (split; [reflexivity|]).
    split; [discriminate|]. split; [intros e' X; now injection X as <-|].
    split; discriminate.
  - rewrite H. cbn [fst snd].
    repeat (split; [reflexivity|]).
    split; [discriminate|]. split; [discriminate|].
    split; reflexivity.
Qed.

(** A property of the object that every fetched page preserves is preserved
    by the loop. *)
Lemma while_loop_invariant (c : ElsClient Entry) (count : Z)
    (Inv : ElsSearch Entry DataFrame -> Prop) :
  (forall (o : ElsSearch Entry DataFrame) (cur : list Entry) (t : PyInt)
          (served : list string) (url : string) (r' : ApiResponse Entry)
          (page : list Entry),
      Inv o ->
      _results o = Some cur ->
      _tot_num_res o = Some t ->
      Z.of_nat (List.length cur) < ob_ival t ->
      (_cursor_supported o = Some true
       \/ (_cursor_supported o = Some false
           /\ Z.of_nat (List.length cur) < 5000)) ->
      c served url = inr r' ->
      lookup_entries r' = inr page ->
      Inv (with_results (cur ++ page) o)) ->
  forall (fuel : nat) (r : ApiResponse Entry) (nu : option string) (p : tqdm)
         (st : St),
    Inv (self st) ->
    Inv (self (snd (while_loop fuel (Some c) count r nu p st))).
Proof.
  intros P. induction fuel as [|fuel IH]; intros r nu p st I; [exact I|].
  rewrite while_loop_S.
  destruct (loop_test_cases st) as (st1 & [S1 T1] & H).
  assert (I1 : Inv (self st1)) by now rewrite S1.
  destruct H as [(e & E) | [(E & _) | (E & cur & t & R & TT & L & LIM)]];
    rewrite E; try exact I1.
  pose proof (loop_body_run c count r nu p st1) as B.
  destruct (loop_body (Some c) count r nu p st1) as [ob stb]. simpl in B.
  inversion B as [e | url e C | url r' C R' | url r' e C LE
                  | url r' cur' page e C R' LE UP
                  | url r' cur' page nu' p' C R' LE UP]; subst;
    cbn [fst snd self]; try exact I1.
  - rewrite S1, R in R'. injection R' as <-. rewrite S1.
    apply (P (self st) cur t (map fst (trace st1)) url r' page); assumption.
  - rewrite S1, R in R'. injection R' as <-.
    apply IH. cbn [self]. rewrite S1.
    apply (P (self st) cur t (map fst (trace st1)) url r' page); assumption.
Qed.

(** When the loop returns, its test is false on the object it leaves. *)
Lemma while_loop_exit (c : ElsClient Entry) (count : Z) (fuel : nat) :
  forall (r : ApiResponse Entry) (nu : option string) (p : tqdm) (st : St)
         (pw : tqdm),
    fst (while_loop fuel (Some c) count r nu p st) = Ok pw ->
    exists res t,
      _results (self (snd (while_loop fuel (Some c) count r nu p st))) =
        Some res
      /\ _tot_num_res (self (snd (while_loop fuel (Some c) count r nu p st))) =
           Some t
      /\ (ob_ival t <= Z.of_nat (List.length res)
          \/ (_cursor_supported
                (self (snd (while_loop fuel (Some c) count r nu p st))) =
                Some false
              /\ 5000 <= Z.of_nat (List.length res))).
Proof.
  induction fuel as [|fuel IH]; intros r nu p st pw; [discriminate|].
  rewrite while_loop_S.
  destruct (loop_test_cases st) as (st1 & [S1 T1] & H).
  destruct H as [(e & E) | [(E & cur & t & R & TT & D) | (E & _)]]; rewrite E.
  - discriminate.
  - intros _. exists cur, t. cbn [fst snd]. rewrite S1.
    split; [exact R|]. split; [exact TT | exact D].
  - destruct (loop_body (Some c) count r nu p st1) as [[[[r' nu'] p']|e|] stb];
      try discriminate.
    apply IH.
Qed.

(** With pages that are never empty, each turn of the loop brings the
    results closer to the total: the loop ends, by a return or an exception,
    within as many turns as results are missing. *)
Lemma while_loop_ends (c : ElsClient Entry) (count : Z) :
  (forall served url r page,
      c served url = inr r -> lookup_entries r = inr page -> page <> []) ->
  forall (fuel : nat) (r : ApiResponse Entry) (nu : option string) (p : tqdm)
         (st : St) (cur : list Entry) (t : PyInt),
    _results (self st) = Some cur ->
    _tot_num_res (self st) = Some t ->
    (Z.to_nat (ob_ival t - Z.of_nat (List.length cur)) < fuel)%nat ->
    fst (while_loop fuel (Some c) count r nu p st) <> OutOfFuel.
Proof.
  intros P. induction fuel as [|fuel IH]; intros r nu p st cur t R T L; [lia|].
  rewrite while_loop_S.
  destruct (loop_test_cases st) as (st1 & [S1 T1] & H).
  destruct H as [(e & E) | [(E & _) | (E & cur' & t' & R' & TT & LT & _)]];
    rewrite E; try discriminate.
  rewrite R in R'. injection R' as <-. rewrite T in TT. injection TT as <-.
  pose proof (loop_body_run c count r nu p st1) as BS.
  destruct (loop_body (Some c) count r nu p st1) as [ob stb]. simpl in BS.
  inversion BS as [e | url e C | url r' C R' | url r' e C LE
                   | url r' cur' page e C R' LE UP
                   | url r' cur' page nu' p' C R' LE UP]; subst;
    cbn [fst snd]; try discriminate.
  rewrite S1, R in R'. injection R' as <-.
  apply (IH r' nu' p' _ (cur ++ page) t).
  - reflexivity.
  - cbn [self _tot_num_res with_results]. now rewrite S1.
  - specialize (P _ _ _ _ C LE). rewrite length_app.
    destruct page as [|x page]; [now elim P|]. cbn [List.length]. lia.
Qed.

(** ** The allocator and [hasAllResults] *)

(** [len(...) is total]: the object [len] makes at allocator position [next']
    against a total allocated earlier, at position [next]. *)
Lemma is_of_new_len (n t : Z) (next next' : nat) :
  0 <= n ->
  (is_small_int t = false -> (next < next')%nat) ->
  address_eqb (if is_small_int n then SmallInt n else HeapAddr next')
              (if is_small_int t then SmallInt t else HeapAddr next) =
    ((n =? t) && (t <=? 256))%bool.
Proof.
  intros G L. unfold is_small_int in *.
  destruct (Z.leb_spec (-5) n) as [N1|N1]; [|lia].
  destruct (Z.leb_spec (-5) t) as [T1|T1];
    destruct (Z.leb_spec n 256) as [N2|N2];
    destruct (Z.leb_spec t 256) as [T2|T2];
    cbn [andb address_eqb];
    destruct (Z.eqb_spec n t) as [E|E]; cbn [andb];
    try reflexivity; try lia.
  all: apply Nat.eqb_neq; specialize (L eq_refl); lia.
Qed.

(** X1: after a call of [execute] that returned, [hasAllResults()] is
    [True] exactly when the number of results is the total and that number
    is one of the shared small integers (at most 256). *)
Lemma hasAllResults_after_execute (c : ElsClient Entry)
    (get_all use_cursor : bool) (view : option string) (count : Z)
    (fuel : nat) (st : St) :
  fst (execute pd_DataFrame recast_df (Some c) get_all use_cursor view count
         fuel st) = Ok tt ->
  exists r t,
    _results (self (snd (execute pd_DataFrame recast_df (Some c) get_all
                           use_cursor view count fuel st))) = Some r
    /\ option_map ob_ival
         (_tot_num_res (self (snd (execute pd_DataFrame recast_df (Some c)
                                     get_all use_cursor view count fuel st)))) =
         Some t
    /\ fst (hasAllResults (snd (execute pd_DataFrame recast_df (Some c) get_all
                                  use_cursor view count fuel st))) =
         Ok ((Z.of_nat (List.length r) =? t) && (t <=? 256))%bool.
Proof.
  intros O.
  destruct (execute_ok_inv c get_all use_cursor view count fuel st O)
    as (u & r0 & t & p0 & page & U & C & LT & BAR & LE).
  rewrite (execute_start c get_all use_cursor view count fuel st u r0 t p0
             page U C LT BAR LE).
  match goal with |- context [execute_rest _ _ _ _ _ _ _ _ ?s] =>
    set (st3 := s) end.
  destruct (execute_rest_run c get_all count fuel r0 p0 st3 page eq_refl)
    as (evs & _ & RS & TW & _ & NW & _).
  exists (page ++ collected evs), t.
  split; [exact RS|]. rewrite TW. split; [reflexivity|].
  rewrite hasAllResults_run, RS, TW.
  unfold st3 at 1. cbn [self _tot_num_res with_results with_tot_num_res ob_addr].
  f_equal. apply is_of_new_len; [lia|].
  intros SM.
  assert (N3 : next_addr st3 = S (next_addr st)).
  { unfold st3. cbn [next_addr]. now rewrite SM. }
  lia.
Qed.

(** ** How far the results can pass the limit *)

(** X2: on a session without cursor support and against a client whose
    pages hold at most [p] entries, a call of [execute] that returned holds
    fewer than [5000 + p] results. *)
Lemma results_bound_without_cursor (c : ElsClient Entry) (p : nat)
    (get_all use_cursor : bool) (view : option string) (count : Z)
    (fuel : nat) (st : St) :
  (forall served url r page,
      c served url = inr r -> lookup_entries r = inr page ->
      (List.length page <= p)%nat) ->
  _cursor_supported (self st) = Some false ->
  fst (execute pd_DataFrame recast_df (Some c) get_all use_cursor view count
         fuel st) = Ok tt ->
  exists res,
    _results (self (snd (execute pd_DataFrame recast_df (Some c) get_all
                           use_cursor view count fuel st))) = Some res
    /\ Z.of_nat (List.length res) < 5000 + Z.of_nat p.
Proof.
  intros P CS O.
  destruct (execute_ok_inv c get_all use_cursor view count fuel st O)
    as (u & r0 & t & p0 & page & U & C & LT & BAR & LE).
  rewrite (execute_start c get_all use_cursor view count fuel st u r0 t p0
             page U C LT BAR LE).
  match goal with |- context [execute_rest _ _ _ _ _ _ _ _ ?s] =>
    set (st3 := s) end.
  assert (PB : Z.of_nat (List.length page) < 5000 + Z.of_nat p).
  { specialize (P _ _ _ _ C LE). lia. }
  destruct get_all.
  - destruct (execute_rest_after_loop c count fuel r0 p0 st3) as (ER & _).
    rewrite ER.
    apply (while_loop_invariant c count
             (fun o => _cursor_supported o = Some false
                       /\ exists res, _results o = Some res
                                      /\ Z.of_nat (List.length res) <
                                         5000 + Z.of_nat p)).
    + intros o cur t' served url r' page' (CS' & res & R & B) R' _ _ LIM C' LE'.
      split; [exact CS'|]. exists (cur ++ page'). split; [reflexivity|].
      rewrite length_app. specialize (P _ _ _ _ C' LE').
      destruct LIM as [X | [_ X]]; [congruence | lia].
    + split; [exact CS|]. exists page. split; [reflexivity | exact PB].
  - rewrite execute_rest_single.
    destruct (tqdm_close p0);
      cbn [fst snd self _results with_results with_results_df];
      exists page; (split; [reflexivity | exact PB]).
Qed.


(** * Further properties of [execute] *)

(** ** What a call that returned leaves *)

(** X3: when [execute] returns, every request of the call had brought a
    page, [_results] is the concatenation of those pages in the order of the
    requests (whatever [_results] held before the call), and [results_df] is
    the table built from exactly these results. *)
Theorem execute_success_collects_pages :
  forall (c : ElsClient Entry) (get_all use_cursor : bool)
         (view : option string) (count : Z) (fuel : nat) (st : St) (u : string)
         (evs : list (event Entry)),
    _uri (self st) = Some u ->
    fst (execute pd_DataFrame recast_df (Some c) get_all use_cursor view count
           fuel st) = Ok tt ->
    trace (snd (execute pd_DataFrame recast_df (Some c) get_all use_cursor view
                  count fuel st)) = trace st ++ evs ->
    Forall (fun ev => page_failure (snd ev) = None) evs
    /\ _results (self (snd (execute pd_DataFrame recast_df (Some c) get_all
                              use_cursor view count fuel st))) =
         Some (collected evs)
    /\ results_df (self (snd (execute pd_DataFrame recast_df (Some c) get_all
                                use_cursor view count fuel st))) =
         Some (recast_df (pd_DataFrame (Some (collected evs)))).
Proof.
  intros c get_all use_cursor view count fuel st u evs U O T.
  destruct (execute_run c get_all use_cursor view count fuel st u U)
    as (evs0 & T0 & H).
  rewrite T0 in T. apply app_inv_head in T. subst evs.
  destruct (first_failure (c (map fst (trace st))
                             (first_url u use_cursor view count))) eqn:FF.
  { destruct H as (X & _). rewrite X in O. discriminate. }
  destruct H as (RS & F).
  split; [|split].
  - constructor.
    + cbn [snd]. now apply first_failure_none.
    + apply Forall_forall. intros ev IN.
      destruct (page_failure (snd ev)) as [e|] eqn:P; [|reflexivity].
      apply In_nth_error in IN. destruct IN as (k & N).
      destruct (F k ev e N P) as (X & _). rewrite X in O. discriminate.
  - exact RS.
  - destruct (execute_ok_inv c get_all use_cursor view count fuel st O)
      as (u' & r0 & t & p0 & page & U' & C & LT & BAR & LE).
    revert O RS.
    rewrite (execute_start c get_all use_cursor view count fuel st u' r0 t p0
               page U' C LT BAR LE).
    match goal with |- context [execute_rest _ _ _ _ _ _ _ _ ?s] =>
      set (st3 := s) end.
    destruct (execute_rest_run c get_all count fuel r0 p0 st3 page eq_refl)
      as (evs & _ & RS' & _ & _ & _ & D & _).
    intros O RS. rewrite (D O). rewrite RS' in RS. injection RS as ->.
    reflexivity.
Qed.

(** ** What a call that did not return leaves *)

(** X4: when [execute] does not return normally (any exception, with or
    without a client), [results_df] is left as it was before the call, even
    when [_results] has been replaced by the pages fetched so far. *)
Theorem failed_execute_keeps_table :
  forall (els_client : option (ElsClient Entry)) (get_all use_cursor : bool)
         (view : option string) (count : Z) (fuel : nat) (st : St),
    fst (execute pd_DataFrame recast_df els_client get_all use_cursor view
           count fuel st) <> Ok tt ->
    results_df (self (snd (execute pd_DataFrame recast_df els_client get_all
                             use_cursor view count fuel st))) =
      results_df (self st).
Proof.
  intros [c|] get_all use_cursor view count fuel st.
  2:{ unfold execute. mstep. destruct (_uri (self st)); reflexivity. }
  destruct (_uri (self st)) as [u|] eqn:U.
  2:{ unfold execute. mstep. rewrite U. reflexivity. }
  destruct (execute_cases c use_cursor view count st u U)
    as [(e & _ & H) | (r & t & p0 & page & C & LT & BAR & LE & _)].
  - intros _. now destruct (H get_all fuel) as (_ & _ & _ & D).
  - rewrite (execute_start c get_all use_cursor view count fuel st u r t p0
               page U C LT BAR LE).
    match goal with |- context [execute_rest _ _ _ _ _ _ _ _ ?s] =>
      set (st3 := s) end.
    destruct (execute_rest_run c get_all count fuel r p0 st3 page eq_refl)
      as (evs & _ & _ & _ & _ & _ & _ & D & _).
    intros O. rewrite (D O). reflexivity.
Qed.





(** ** When the loop stops *)

(** X7: when [execute(get_all=True)] returns on a response with a total and
    entries, it holds at least as many results as the total says, or the
    index has no cursor support and it holds 5000 results or more; on a
    cursor-capable index a call that returns has therefore retrieved
    everything. *)
Theorem returned_get_all_is_complete_or_limited :
  forall (c : ElsClient Entry) (use_cursor : bool) (view : option string)
         (count : Z) (fuel : nat) (st : St) (u : string),
    _uri (self st) = Some u ->
    fst (execute pd_DataFrame recast_df (Some c) true use_cursor view count
           fuel st) = Ok tt ->
    exists res t,
      _results (self (snd (execute pd_DataFrame recast_df (Some c) true
                             use_cursor view count fuel st))) = Some res
      /\ option_map ob_ival
           (_tot_num_res (self (snd (execute pd_DataFrame recast_df (Some c)
                                       true use_cursor view count fuel st)))) =
           Some t
      /\ (t <= Z.of_nat (List.length res)
          \/ (_cursor_supported (self st) = Some false
              /\ 5000 <= Z.of_nat (List.length res))).
Proof.
  intros c use_cursor view count fuel st u _ O.
  destruct (execute_ok_inv c true use_cursor view count fuel st O)
    as (u' & r0 & t & p0 & page & U & C & LT & BAR & LE).
  revert O.
  rewrite (execute_start c true use_cursor view count fuel st u' r0 t p0
             page U C LT BAR LE).
  match goal with |- context [execute_rest _ _ _ _ _ _ _ _ ?s] =>
    set (st3 := s) end.
  intros O.
  destruct (execute_rest_after_loop c count fuel r0 p0 st3)
    as (ER & ET & _ & _ & EO & _).
  destruct (EO O) as (pw & OW).
  destruct (while_loop_exit c count fuel r0 None p0 st3 pw OW)
    as (res & t' & R & T' & D).
  destruct (while_loop_run c count fuel r0 None p0 st3)
    as (evs' & _ & _ & SB & _).
  destruct SB as (_ & _ & CS & _ & _ & TW).
  rewrite TW in T'. unfold st3 in T' at 1.
  cbn [self _tot_num_res with_results with_tot_num_res] in T'.
  injection T' as <-. cbn [ob_ival] in D.
  exists res, t. rewrite ER, ET, TW. split; [exact R|].
  split; [reflexivity|]. rewrite CS in D. exact D.
Qed.

(** X8: against a client whose pages are never empty, [execute] ends (it
    returns or raises) within as many turns of the loop as the first
    response reports results. *)
Theorem execute_ends_on_nonempty_pages :
  forall (c : ElsClient Entry) (get_all use_cursor : bool)
         (view : option string) (count : Z) (fuel : nat) (st : St) (u : string)
         (r : ApiResponse Entry) (t : Z),
    (forall served url r' page,
        c served url = inr r' -> lookup_entries r' = inr page -> page <> []) ->
    _uri (self st) = Some u ->
    c (map fst (trace st)) (first_url u use_cursor view count) = inr r ->
    lookup_total r = inr t ->
    (Z.to_nat t < fuel)%nat ->
    fst (execute pd_DataFrame recast_df (Some c) get_all use_cursor view count
           fuel st) <> OutOfFuel.
Proof.
  intros c get_all use_cursor view count fuel st u r t P U C LT F.
  destruct (execute_cases c use_cursor view count st u U)
    as [(e & _ & H) | (r' & t' & p0 & page & C' & LT' & BAR & LE & _)].
  { destruct (H get_all fuel) as (X & _). rewrite X. discriminate. }
  rewrite C in C'. injection C' as <-. rewrite LT in LT'. injection LT' as <-.
  rewrite (execute_start c get_all use_cursor view count fuel st u r t p0
             page U C LT BAR LE).
  match goal with |- context [execute_rest _ _ _ _ _ _ _ _ ?s] =>
    set (st3 := s) end.
  destruct get_all.
  - destruct (execute_rest_after_loop c count fuel r p0 st3)
      as (_ & _ & _ & _ & _ & _ & EF).
    intros X. apply EF in X. revert X.
    apply (while_loop_ends c count P fuel r None p0 st3 page
             {| ob_addr := if is_small_int t then SmallInt t
                           else HeapAddr (next_addr st);
                ob_ival := t |}); try reflexivity.
    cbn [ob_ival]. lia.
  - rewrite execute_rest_single.
    destruct (tqdm_close p0); [discriminate|].
    cbn [st3 self _results with_results]. discriminate.
Qed.


(** ** Single turns of the loop, forwards *)




(** ** A first page that is already complete *)


(** ** Links that cannot be used *)





(** ** Pages that bring nothing *)



(** ** How far the results can pass the total *)

(** X14: against a client whose pages hold at most [p] entries, the results
    of a call that returned exceed the reported total by less than one page:
    [len(results) < max(1, total) + p], on any index. *)
Theorem results_pass_total_by_less_than_a_page :
  forall (c : ElsClient Entry) (p : nat) (get_all use_cursor : bool)
         (view : option string) (count : Z) (fuel : nat) (st : St),
    (forall served url r page,
        c served url = inr r -> lookup_entries r = inr page ->
        (List.length page <= p)%nat) ->
    fst (execute pd_DataFrame recast_df (Some c) get_all use_cursor view count
           fuel st) = Ok tt ->
    exists res t,
      _results (self (snd (execute pd_DataFrame recast_df (Some c) get_all
                             use_cursor view count fuel st))) = Some res
      /\ option_map ob_ival
           (_tot_num_res (self (snd (execute pd_DataFrame recast_df (Some c)
                                       get_all use_cursor view count fuel st)))) =
           Some t
      /\ Z.of_nat (List.length res) < Z.max 1 t + Z.of_nat p.
Proof.
  intros c p get_all use_cursor view count fuel st P O.
  destruct (execute_ok_inv c get_all use_cursor view count fuel st O)
    as (u & r0 & t & p0 & page & U & C & LT & BAR & LE).
  rewrite (execute_start c get_all use_cursor view count fuel st u r0 t p0
             page U C LT BAR LE).
  match goal with |- context [execute_rest _ _ _ _ _ _ _ _ ?s] =>
    set (st3 := s) end.
  assert (PB : Z.of_nat (List.length page) < Z.max 1 t + Z.of_nat p).
  { specialize (P _ _ _ _ C LE). lia. }
  destruct get_all.
  - destruct (execute_rest_after_loop c count fuel r0 p0 st3)
      as (ER & ET & _).
    rewrite ER, ET.
    assert (I : exists res tot,
               _results (self (snd (while_loop fuel (Some c) count r0 None p0
                                      st3))) = Some res
               /\ _tot_num_res (self (snd (while_loop fuel (Some c) count r0
                                             None p0 st3))) = Some tot
               /\ ob_ival tot = t
               /\ Z.of_nat (List.length res) < Z.max 1 t + Z.of_nat p).
    { apply (while_loop_invariant c count
               (fun o => exists res tot,
                           _results o = Some res
                           /\ _tot_num_res o = Some tot
                           /\ ob_ival tot = t
                           /\ Z.of_nat (List.length res) <
                              Z.max 1 t + Z.of_nat p)).
      - intros o cur t' served url r' page' (res & tot & R & TT & TV & B)
               R' TT' LL _ C' LE'.
        rewrite TT in TT'. injection TT' as <-.
        exists (cur ++ page'), tot. split; [reflexivity|].
        split; [exact TT|]. split; [exact TV|].
        rewrite length_app. specialize (P _ _ _ _ C' LE'). lia.
      - eexists page, _. split; [reflexivity|]. split; [reflexivity|].
        split; [reflexivity | exact PB]. }
    destruct I as (res & tot & R & TT & TV & B).
    exists res, t. rewrite R, TT. cbn [option_map]. rewrite TV.
    repeat split. exact B.
  - rewrite execute_rest_single.
    destruct (tqdm_close p0);
      cbn [fst snd self _results _tot_num_res with_results with_results_df
           with_tot_num_res option_map ob_ival st3];
      exists page, t; repeat split; exact PB.
Qed.

(** ** Before the first call, and without a client *)


(** X16: [__init__] assigns neither [_results] nor [_tot_num_res]: on a
    session constructed on a new object, [results], [num_res], [tot_num_res]
    and [hasAllResults()] raise [AttributeError] until [execute] has run, and
    so does [_upper_limit_reached()] unless the index is cursor-capable. *)
Theorem attributes_missing_before_execute :
  forall (q i : string) (log : list (event Entry)) (n : nat),
    fst (results (snd (__init__ pd_DataFrame q i
                         {| self := blank; trace := log; next_addr := n |}))) =
      Raise (AttributeError "_results")
    /\ fst (num_res (snd (__init__ pd_DataFrame q i
                            {| self := blank; trace := log; next_addr := n |}))) =
         Raise (AttributeError "_results")
    /\ fst (tot_num_res (snd (__init__ pd_DataFrame q i
                                {| self := blank; trace := log;
                                   next_addr := n |}))) =
         Raise (AttributeError "_tot_num_res")
    /\ fst (hasAllResults (snd (__init__ pd_DataFrame q i
                                  {| self := blank; trace := log;
                                     next_addr := n |}))) =
         Raise (AttributeError "_results")
    /\ fst (_upper_limit_reached (snd (__init__ pd_DataFrame q i
                                         {| self := blank; trace := log;
                                            next_addr := n |}))) =
         (if existsb (String.eqb i) _cursored_indexes
          then Ok false
          else Raise (AttributeError "_results")).
Proof.
  intros q i log n. rewrite init_run. cbn [snd self blank _results _tot_num_res].
  split; [reflexivity|]. split; [reflexivity|]. split; [reflexivity|].
  split; [reflexivity|].
  unfold _upper_limit_reached. mstep. cbn [_cursor_supported].
  destruct (existsb (String.eqb i) _cursored_indexes); reflexivity.
Qed.

(** ** A server that pages as expected *)



End Properties.

(** * Concrete runs *)

Import Scenario.

(** C6 (as stated, refuted): construction with the empty index returns
    normally; the index is stored and the request address has nothing between
    the base path and the query. *)
Lemma empty_index_is_accepted :
  fst (__init__ (Entry := string) Frame_of "cats" "" start) = Ok tt
  /\ _index (self (construct (Entry := string) "cats" "")) = Some ""
  /\ _uri (self (construct (Entry := string) "cats" "")) =
       Some "https://api.elsevier.com/content/search/?query=cats".
Proof. repeat split. Qed.

(** C4 at a session on a cursor-capable index. *)
Lemma upper_limit_reached_iff_witness :
  fst (_upper_limit_reached (construct (Entry := string) "cats" "scopus")) =
    Ok false.
Proof.
  apply (proj2 (upper_limit_reached_iff
                  (construct (Entry := string) "cats" "scopus"))).
  reflexivity.
Defined.

(** C7 at [fails_third] (the third request fails, the four entries of the
    first two pages stay) and at [no_entries_second] (the second reply has
    no entries, the entry of the first page stays). *)
Lemma fetch_failure_keeps_partial_results_witness :
  (fst (run fails_third true false None 25 10 (construct "cats" "scopus")) =
     Raise (ClientError "HTTP 500")
   /\ _results (self (snd (run fails_third true false None 25 10
                             (construct "cats" "scopus")))) =
        Some ["e1"; "e2"; "e3"; "e4"])
  /\ (fst (run no_entries_second true false None 25 10
             (construct "cats" "scopus")) = Raise (KeyError "entry")
      /\ _results (self (snd (run no_entries_second true false None 25 10
                                (construct "cats" "scopus")))) = Some ["e1"]).
Proof.
  destruct (fetch_failure_keeps_partial_results (progress_bar := counting_bar)
              Frame_of Recast
              fails_third false None 25 10 (construct "cats" "scopus")
              "https://api.elsevier.com/content/search/scopus?query=cats"
              (trace (snd (run fails_third true false None 25 10
                             (construct "cats" "scopus"))))
              1 ("page2", inl (ClientError "HTTP 500")) (ClientError "HTTP 500")
              eq_refl eq_refl eq_refl eq_refl) as (A & _ & _ & B).
  destruct (fetch_failure_keeps_partial_results (progress_bar := counting_bar)
              Frame_of Recast
              no_entries_second false None 25 10 (construct "cats" "scopus")
              "https://api.elsevier.com/content/search/scopus?query=cats"
              (trace (snd (run no_entries_second true false None 25 10
                             (construct "cats" "scopus"))))
              0 ("page1", inr (response (Some 2) None (Some [])))
              (KeyError "entry")
              eq_refl eq_refl eq_refl eq_refl) as (A' & _ & _ & B').
  split; split; assumption.
Defined.


(** C10 (as stated, refuted): the second response of [total_only_first] has
    no total, and [execute] returns normally with the entries of both pages. *)
Lemma later_page_without_total_is_accepted :
  fst (run total_only_first true false None 25 10 (construct "cats" "scopus")) =
    Ok tt
  /\ (exists url r,
        nth_error (trace (snd (run total_only_first true false None 25 10
                                 (construct "cats" "scopus")))) 1 =
          Some (url, inr r)
        /\ lookup_total r = inl (KeyError "opensearch:totalResults"))
  /\ _results (self (snd (run total_only_first true false None 25 10
                            (construct "cats" "scopus")))) =
       Some ["e1"; "e2"].
Proof.
  split; [reflexivity|]. split; [|reflexivity].
  eexists. eexists. split; reflexivity.
Qed.

(** C10 at [no_entries_second]: the second page has no entries. *)
Lemma missing_field_raises_key_error_witness :
  fst (run no_entries_second true false None 25 10 (construct "cats" "scopus")) =
    Raise (KeyError "entry")
  /\ List.length (trace (snd (run no_entries_second true false None 25 10
                                (construct "cats" "scopus")))) = 2%nat.
Proof.
  destruct (missing_field_raises_key_error (progress_bar := counting_bar)
              Frame_of Recast
              no_entries_second true false None 25 10
              (construct "cats" "scopus")
              "https://api.elsevier.com/content/search/scopus?query=cats"
              (trace (snd (run no_entries_second true false None 25 10
                             (construct "cats" "scopus"))))
              eq_refl eq_refl) as (_ & B & _).
  apply (B 1%nat "page1" (response (Some 2) None (Some []))
           {| opensearch_totalResults := Some 2;
              entry := None;
              link := Some [] |});
    [reflexivity | reflexivity | reflexivity | intros H; discriminate H].
Defined.



(** ** Where the code departs from its documentation *)

(** C1: an index without cursor support, 6000 records, pages of 30.  The loop
    tests the limit before each fetch only: at 4980 results it fetches once
    more and [execute] returns with 5010 results. *)
Theorem results_exceed_5000_without_cursor :
  fst (run (paged 30 6000) true false None 30 200
         (construct "cats" "sciencedirect")) = Ok tt
  /\ _cursor_supported (self (construct (Entry := nat) "cats" "sciencedirect")) =
       Some false
  /\ option_map (fun r => Z.of_nat (List.length r))
       (_results (self (snd (run (paged 30 6000) true false None 30 200
                               (construct "cats" "sciencedirect"))))) =
       Some 5010
  /\ List.length (trace (snd (run (paged 30 6000) true false None 30 200
                                (construct "cats" "sciencedirect")))) = 167%nat.
Proof. vm_compute. repeat split. Qed.

(** C2: 300 records on a cursor-capable index, all retrieved: [num_res] and
    [tot_num_res] are both 300 and [hasAllResults()] is [False], because [is]
    compares two distinct [int] objects; on a session that has not executed,
    [hasAllResults()] raises [AttributeError] instead of returning. *)
Theorem hasAllResults_compares_identity :
  fst (run (paged 25 300) true false None 25 100 (construct "cats" "scopus")) =
    Ok tt
  /\ option_map (fun r => Z.of_nat (List.length r))
       (_results (self (snd (run (paged 25 300) true false None 25 100
                               (construct "cats" "scopus"))))) = Some 300
  /\ option_map ob_ival
       (_tot_num_res (self (snd (run (paged 25 300) true false None 25 100
                                   (construct "cats" "scopus"))))) = Some 300
  /\ fst (hasAllResults (snd (run (paged 25 300) true false None 25 100
                                (construct "cats" "scopus")))) = Ok false
  /\ fst (hasAllResults (construct (Entry := nat) "cats" "scopus")) =
       Raise (AttributeError "_results").
Proof. vm_compute. repeat split. Qed.

(** * Further concrete runs *)

Import Servers.

(** X1 at Scenario A: three results of three. *)
Lemma hasAllResults_after_execute_witness :
  exists r t,
    _results (self (snd (run scenario_A false false None 25 0
                           (construct "cats" "scopus")))) = Some r
    /\ option_map ob_ival
         (_tot_num_res (self (snd (run scenario_A false false None 25 0
                                     (construct "cats" "scopus"))))) = Some t
    /\ fst (hasAllResults (snd (run scenario_A false false None 25 0
                                  (construct "cats" "scopus")))) =
         Ok ((Z.of_nat (List.length r) =? t) && (t <=? 256))%bool.
Proof.
  exact (hasAllResults_after_execute (progress_bar := counting_bar)
           Frame_of Recast scenario_A false false
           None 25 0 (construct "cats" "scopus") eq_refl).
Defined.

Lemma paged_page_size (size : nat) (total : Z) :
  forall served url r entries,
    paged size total served url = inr r ->
    lookup_entries r = inr entries ->
    (List.length entries <= size)%nat.
Proof.
  intros served url r entries H1 H2. unfold paged in H1.
  injection H1 as <-. unfold page, response, lookup_entries in H2.
  cbn [search_results entry] in H2. injection H2 as <-.
  rewrite length_seq. apply Nat.le_refl.
Defined.

(** X2 at pages of 30 behind an index without cursor support. *)
Lemma results_bound_without_cursor_witness :
  exists res,
    _results (self (snd (run (paged 30 90) true false None 30 10
                           (construct "cats" "sciencedirect")))) = Some res
    /\ Z.of_nat (List.length res) < 5000 + Z.of_nat 30.
Proof.
  exact (results_bound_without_cursor (progress_bar := counting_bar)
           Frame_of Recast (paged 30 90) 30 true
           false None 30 10 (construct "cats" "sciencedirect")
           (paged_page_size 30 90) eq_refl eq_refl).
Defined.

(** X3 at [stale_next]: three pages of one record. *)
Lemma execute_success_collects_pages_witness :
  _results (self (snd (run stale_next true false None 25 10
                         (construct "cats" "scopus")))) =
    Some ["e1"; "e2"; "e3"]
  /\ results_df (self (snd (run stale_next true false None 25 10
                              (construct "cats" "scopus")))) =
       Some (Recast (Frame_of (Some ["e1"; "e2"; "e3"]))).
Proof.
  destruct (execute_success_collects_pages (progress_bar := counting_bar)
              Frame_of Recast stale_next true
              false None 25 10 (construct "cats" "scopus")
              "https://api.elsevier.com/content/search/scopus?query=cats"
              (trace (snd (run stale_next true false None 25 10
                             (construct "cats" "scopus"))))
              eq_refl eq_refl eq_refl) as (_ & A & B).
  split; [exact A | exact B].
Defined.

(** X4 at [fails_third], called on a session that holds the table of
    Scenario A: the table is still that of Scenario A. *)
Lemma failed_execute_keeps_table_witness :
  results_df
    (self (snd (execute Frame_of Recast (Some fails_third) true false None 25 10
                  {| self := self (snd (run scenario_A false false None 25 0
                                          (construct "cats" "scopus")));
                     trace := [];
                     next_addr := 0 |}))) =
    Some (Recast (Frame_of (Some ["e1"; "e2"; "e3"]))).
Proof.
  apply (failed_execute_keeps_table (progress_bar := counting_bar)
           Frame_of Recast (Some fails_third) true
           false None 25 10
           {| self := self (snd (run scenario_A false false None 25 0
                                   (construct "cats" "scopus")));
              trace := [];
              next_addr := 0 |}).
  discriminate.
Defined.




(** X7 at five records in pages of two on a cursor-capable index. *)
Lemma returned_get_all_is_complete_or_limited_witness :
  exists res t,
    _results (self (snd (run (paged 2 5) true false None 2 10
                           (construct "cats" "scopus")))) = Some res
    /\ option_map ob_ival
         (_tot_num_res (self (snd (run (paged 2 5) true false None 2 10
                                     (construct "cats" "scopus"))))) = Some t
    /\ (t <= Z.of_nat (List.length res)
        \/ (_cursor_supported (self (construct (Entry := nat) "cats" "scopus")) =
              Some false
            /\ 5000 <= Z.of_nat (List.length res))).
Proof.
  exact (returned_get_all_is_complete_or_limited (progress_bar := counting_bar)
           Frame_of Recast (paged 2 5)
           false None 2 10 (construct "cats" "scopus")
           "https://api.elsevier.com/content/search/scopus?query=cats"
           eq_refl eq_refl).
Defined.

Lemma paged_page_not_empty (size : nat) (total : Z) :
  forall served url r entries,
    paged (S size) total served url = inr r ->
    lookup_entries r = inr entries ->
    entries <> [].
Proof.
  intros served url r entries H1 H2. unfold paged in H1.
  injection H1 as <-. unfold page, response, lookup_entries in H2.
  cbn [search_results entry] in H2. injection H2 as <-.
  cbn [seq]. discriminate.
Defined.

(** X8 at five records in pages of two: six turns are enough. *)
Lemma execute_ends_on_nonempty_pages_witness :
  fst (run (paged 2 5) true false None 2 6 (construct "cats" "scopus")) <>
    OutOfFuel.
Proof.
  apply (execute_ends_on_nonempty_pages (progress_bar := counting_bar)
           Frame_of Recast (paged 2 5) true false
           None 2 6 (construct "cats" "scopus")
           "https://api.elsevier.com/content/search/scopus?query=cats"
           (page 2 5 0) 5 (paged_page_not_empty 1 5) eq_refl eq_refl eq_refl).
  simpl. lia.
Defined.







(** X14 at five records in pages of two. *)
Lemma results_pass_total_by_less_than_a_page_witness :
  exists res t,
    _results (self (snd (run (paged 2 5) true false None 2 10
                           (construct "cats" "scopus")))) = Some res
    /\ option_map ob_ival
         (_tot_num_res (self (snd (run (paged 2 5) true false None 2 10
                                     (construct "cats" "scopus"))))) = Some t
    /\ Z.of_nat (List.length res) < Z.max 1 t + Z.of_nat 2.
Proof.
  exact (results_pass_total_by_less_than_a_page (progress_bar := counting_bar)
           Frame_of Recast (paged 2 5) 2
           true false None 2 10 (construct "cats" "scopus")
           (paged_page_size 2 5) eq_refl).
Defined.


